(** * SAT knowledge RAG: retrieval and context assembly

    A shallow embedding of [src/rag_system.py] (class [SATKnowledgeRAG]):
    the embedding step of the index build, the build itself, construction
    and rebuild against the vector store, [search], and the
    length-bounded context assembly of [get_relevant_context].

    Python values are modelled as follows.
    - [str] is [string]; [len] is [String.length] read in [Z]; [int] is [Z].
    - [float] is the primitive binary64 [float].
    - a metadata [dict] is a [gmap string string]; [d.get(k, v)] is
      [default v (d !! k)].
    - exceptions are the [Raise] case of [outcome]; code that touches the
      outside world (the embedding provider, the vector store, the knowledge
      base directory) runs in the state-and-exception monad [M] over [World].
    - [print] and [time.sleep] are not modelled. *)

From Stdlib Require Import ZArith Lia Floats.PrimFloat.
From stdpp Require Import base gmap strings list.

Open Scope Z_scope.

(** ** Python strings *)

Module Py.

(** [len(s)] *)
Definition len (s : string) : Z := Z.of_nat (String.length s).

(** The first [n] characters of [s]. *)
Fixpoint take (n : nat) (s : string) : string :=
  match n, s with
  | O, _ => EmptyString
  | S _, EmptyString => EmptyString
  | S n', String c s' => String c (take n' s')
  end.

(** [s[:stop]]: a negative [stop] counts from the end. *)
Definition slice_to (s : string) (stop : Z) : string :=
  if 0 <=? stop then take (Z.to_nat stop) s
  else take (Z.to_nat (len s + stop)) s.

(** [sep.join(parts)] *)
Fixpoint join (sep : string) (parts : list string) : string :=
  match parts with
  | [] => EmptyString
  | p :: rest =>
      match rest with
      | [] => p
      | _ :: _ => p +:+ sep +:+ join sep rest
      end
  end.

(** [s.endswith(suffix)] *)
Fixpoint endswith (s suffix : string) : bool :=
  if String.eqb s suffix then true
  else match s with
       | EmptyString => false
       | String _ s' => endswith s' suffix
       end.

(** The one-character string ["\n"]. *)
Definition NL : string := String (Ascii.ascii_of_nat 10) EmptyString.

End Py.

(** ** Exceptions and outcomes *)

(** The exceptions met. [OSError] stands for its subclasses as well: the
    [NotADirectoryError] and [PermissionError] that [Path.iterdir] raises
    on what is not a directory or cannot be listed. *)
Inductive exn : Type :=
| IndexError
| ValueError
| NotFoundError (name : string)
| UniqueConstraintError (name : string)
| InvalidDimensionException
| ProviderError (msg : string)
| OSError (filename : string).

Inductive outcome (A : Type) : Type :=
| Ok (a : A)
| Raise (e : exn).
Arguments Ok {A} a.
Arguments Raise {A} e.

Definition obind {A B : Type} (c : outcome A) (k : A -> outcome B) : outcome B :=
  match c with
  | Ok a => k a
  | Raise e => Raise e
  end.

Notation "'let?' x := c 'in' k" := (obind c (fun x => k))
  (at level 10, x name, c at level 100, k at level 200, only parsing).

(** [l[i]] for a non-negative index: [IndexError] when out of range. *)
Definition index {A : Type} (l : list A) (i : nat) : outcome A :=
  match l !! i with
  | Some a => Ok a
  | None => Raise IndexError
  end.

(** A [for] loop over [xs] whose body may raise, collecting one value per
    iteration. *)
Fixpoint for_each {A B : Type} (f : A -> outcome B) (xs : list A) : outcome (list B) :=
  match xs with
  | [] => Ok []
  | x :: xs' =>
      let? y := f x in
      let? ys := for_each f xs' in
      Ok (y :: ys)
  end.

(** ** Data model *)

(** One stored document of the vector store. *)
Record Entry : Type := mkEntry {
  entry_id : string;
  entry_embedding : list float;
  entry_document : string;
  entry_metadata : gmap string string
}.

(** What [collection.query] returns: one row per query embedding. *)
Record QueryResult : Type := mkQueryResult {
  documents : list (list string);
  metadatas : list (list (gmap string string));
  distances : list (list float)
}.

(** One formatted result of [search]. *)
Record SearchResult : Type := mkSearchResult {
  content : string;
  metadata : gmap string string;
  similarity_score : float;
  title : string;
  subject : string;
  type : string;
  file_path : string
}.

(** ** Context assembly ([get_relevant_context], after the search) *)

Definition NO_RELEVANT_INFORMATION : string :=
  "No relevant information found in the knowledge base.".

Definition SEPARATOR : string := Py.NL +:+ Py.NL +:+ "---" +:+ Py.NL +:+ Py.NL.

(** [f"Source: {result['title']} ({result['subject']}, {result['type']})"] *)
Definition source_info (result : SearchResult) : string :=
  "Source: " +:+ title result +:+ " (" +:+ subject result +:+ ", "
    +:+ type result +:+ ")".

(** [max_context_length - current_length - len(source_info) - 10] *)
Definition available_length (max_context_length current_length : Z)
    (result : SearchResult) : Z :=
  max_context_length - current_length - Py.len (source_info result) - 10.

(** The content as it is emitted: cut to the available length and marked
    when it is longer than that. *)
Definition fit_content (content : string) (available : Z) : string :=
  if Py.len content >? available
  then Py.slice_to content available +:+ "..."
  else content.

(** The body of the [for] loop up to, and without, the [break] test:
    the new [context_parts] and [current_length]. *)
Definition loop_body (max_context_length : Z) (context_parts : list string)
    (current_length : Z) (result : SearchResult) : list string * Z :=
  let available := available_length max_context_length current_length result in
  if available >? 100 then
    let content' := fit_content (content result) available in
    (context_parts ++ [source_info result +:+ Py.NL +:+ content'],
     current_length + Py.len (source_info result) + Py.len content' + 10)
  else (context_parts, current_length).

(** The [for result in results] loop with its [break]. *)
Fixpoint assemble_loop (max_context_length : Z) (results : list SearchResult)
    (context_parts : list string) (current_length : Z) : list string * Z :=
  match results with
  | [] => (context_parts, current_length)
  | result :: rest =>
      let '(context_parts', current_length') :=
        loop_body max_context_length context_parts current_length result in
      if current_length' >=? max_context_length
      then (context_parts', current_length')
      else assemble_loop max_context_length rest context_parts' current_length'
  end.

(** [get_relevant_context] from the point where [results] is known. *)
Definition assemble_context (results : list SearchResult)
    (max_context_length : Z) : string :=
  match results with
  | [] => NO_RELEVANT_INFORMATION
  | _ :: _ =>
      Py.join SEPARATOR (assemble_loop max_context_length results [] 0).1
  end.

(** ** The outside world *)

(** Calls made to the external collaborators, in the order they are made. *)
Inductive Event : Type :=
| EvScan (knowledge_base_path subject : string)
| EvEmbed (contents : string)
| EvAdd (collection : string) (count : nat)
| EvQuery (collection : string) (n_results : Z)
    (where_ : option (gmap string string)).

(** The persistent vector store (collection name to stored entries) and the
    history of external calls. *)
Record World : Type := mkWorld {
  store : gmap string (list Entry);
  trace : list Event
}.

(** State and exceptions: a raised exception keeps the effects that
    happened before it. *)
Definition M (A : Type) : Type := World -> outcome A * World.

Definition m_ret {A : Type} (a : A) : M A := fun w => (Ok a, w).

Definition m_bind {A B : Type} (c : M A) (k : A -> M B) : M B :=
  fun w =>
    match c w with
    | (Ok a, w') => k a w'
    | (Raise e, w') => (Raise e, w')
    end.

Notation "'let!' x := c 'in' k" := (m_bind c (fun x => k))
  (at level 10, x name, c at level 100, k at level 200, only parsing).

(** [try: c  except: handler] *)
Definition try_except {A : Type} (c : M A) (handler : exn -> M A) : M A :=
  fun w =>
    match c w with
    | (Ok a, w') => (Ok a, w')
    | (Raise e, w') => handler e w'
    end.

Definition lift {A : Type} (o : outcome A) : M A := fun w => (o, w).

Definition log (ev : Event) : M unit :=
  fun w => (Ok tt, mkWorld (store w) (trace w ++ [ev])).

(** ** The vector store *)

Module Chroma.

(** The VectorIndex collaborator is the ChromaDB client library, which is
    not part of this repository. Its operations are modelled from the
    interface the spec gives for it: (id, vector, text, metadata) tuples
    per named collection, one dimensionality per collection, top-k
    nearest-neighbour queries optionally filtered by metadata equality.
    A collection handle is the collection's name. *)

(** Modelled from the spec: [get_collection(name) -> handle|not-found] of
    the VectorIndex interface. *)
Definition get_collection (name : string) : M string :=
  fun w =>
    match store w !! name with
    | Some _ => (Ok name, w)
    | None => (Raise (NotFoundError name), w)
    end.

(** Modelled from the spec: [create_collection(name)] of the VectorIndex
    interface; the new collection is empty, and a name already in use is
    refused. *)
Definition create_collection (name : string) : M string :=
  fun w =>
    match store w !! name with
    | Some _ => (Raise (UniqueConstraintError name), w)
    | None => (Ok name, mkWorld (<[name := []]> (store w)) (trace w))
    end.

(** Modelled from the spec: [delete_collection(name)] of the VectorIndex
    interface. *)
Definition delete_collection (name : string) : M unit :=
  fun w =>
    match store w !! name with
    | Some _ => (Ok tt, mkWorld (delete name (store w)) (trace w))
    | None => (Raise (NotFoundError name), w)
    end.

(** Modelled from the spec: the dimensionality that must match across all
    embeddings of one collection: that of its first entry, or of the first
    vector offered when it is still empty. *)
Definition dimension (entries : list Entry) (offered : list (list float))
    : option nat :=
  match entries, offered with
  | e :: _, _ => Some (length (entry_embedding e))
  | [], v :: _ => Some (length v)
  | [], [] => None
  end.

(** Modelled from the spec: a vector has the dimensionality [d], when
    there is one. *)
Definition fits (d : option nat) (v : list float) : bool :=
  match d with
  | Some n => Nat.eqb (length v) n
  | None => true
  end.

(** Modelled from the spec: the (id, vector, text, metadata) tuples of a
    bulk insert. *)
Fixpoint zip_entries (ids : list string) (embeddings : list (list float))
    (documents : list string) (metadatas : list (gmap string string))
    : list Entry :=
  match ids, embeddings, documents, metadatas with
  | i :: ids', v :: embeddings', d :: documents', m :: metadatas' =>
      mkEntry i v d m :: zip_entries ids' embeddings' documents' metadatas'
  | _, _, _, _ => []
  end.

(** Modelled from the spec: [add(ids, vectors, documents, metadatas)] of
    the VectorIndex interface, called as
    [collection.add(documents=, metadatas=, embeddings=, ids=)]. The insert
    is a single bulk operation: it fails as a whole when the collection is
    missing, the four lists differ in length, or a vector has another
    dimensionality than the collection. *)
Definition add (collection : string) (documents : list string)
    (metadatas : list (gmap string string))
    (embeddings : list (list float)) (ids : list string) : M unit :=
  let! _ := log (EvAdd collection (length documents)) in
  fun w =>
    match store w !! collection with
    | None => (Raise (NotFoundError collection), w)
    | Some entries =>
        if negb (Nat.eqb (length ids) (length documents)
                 && Nat.eqb (length ids) (length metadatas)
                 && Nat.eqb (length ids) (length embeddings))
        then (Raise ValueError, w)
        else if negb (forallb (fits (dimension entries embeddings)) embeddings)
        then (Raise InvalidDimensionException, w)
        else (Ok tt,
              mkWorld (<[collection :=
                           entries ++ zip_entries ids embeddings documents metadatas]>
                         (store w))
                      (trace w))
    end.

(** Modelled from the spec: the metadata equality filter; every key of
    the [where] clause is bound to the same value in the metadata. *)
Definition matches (where_ : option (gmap string string))
    (md : gmap string string) : Prop :=
  match where_ with
  | None => True
  | Some clause => map_Forall (fun k v => md !! k = Some v) clause
  end.

#[global] Instance matches_dec where_ md : Decision (matches where_ md).
Proof. destruct where_; simpl; apply _. Defined.

Section Ranking.

(** The backend's native distance between two vectors. *)
Variable distance : list float -> list float -> float.

(** Modelled from the spec: insertion into a list ranked nearest first. *)
Fixpoint insert_ranked (q : list float) (e : Entry) (ranked : list Entry)
    : list Entry :=
  match ranked with
  | [] => [e]
  | e' :: rest =>
      if PrimFloat.leb (distance q (entry_embedding e))
                       (distance q (entry_embedding e'))
      then e :: ranked
      else e' :: insert_ranked q e rest
  end.

(** Modelled from the spec: the entries in rank order, nearest first. *)
Definition rank (q : list float) (entries : list Entry) : list Entry :=
  foldr (insert_ranked q) [] entries.

(** Modelled from the spec: the top [n_results] entries that pass the
    filter, in rank order. *)
Definition nearest (entries : list Entry) (n_results : Z)
    (where_ : option (gmap string string)) (q : list float) : list Entry :=
  take (Z.to_nat n_results)
       (rank q (filter (fun e => matches where_ (entry_metadata e)) entries)).

(** Modelled from the spec: [query(query_vector, k, filter?) -> ranked
    (ids, documents, metadatas, distances)] of the VectorIndex interface,
    called as [collection.query(query_embeddings=, n_results=, where=)]; one
    row per query vector. It fails when the collection is missing or a
    query vector has another dimensionality than the collection. *)
Definition query (collection : string) (query_embeddings : list (list float))
    (n_results : Z) (where_ : option (gmap string string)) : M QueryResult :=
  let! _ := log (EvQuery collection n_results where_) in
  fun w =>
    match store w !! collection with
    | None => (Raise (NotFoundError collection), w)
    | Some entries =>
        if negb (forallb (fits (dimension entries [])) query_embeddings)
        then (Raise InvalidDimensionException, w)
        else
          (Ok {| documents :=
                   map (fun q => map entry_document
                                   (nearest entries n_results where_ q))
                       query_embeddings;
                 metadatas :=
                   map (fun q => map entry_metadata
                                   (nearest entries n_results where_ q))
                       query_embeddings;
                 distances :=
                   map (fun q => map (fun e => distance q (entry_embedding e))
                                   (nearest entries n_results where_ q))
                       query_embeddings |},
           w)
    end.

End Ranking.

End Chroma.

(** ** The retrieval system *)

(** The fields of a [SATKnowledgeRAG] object that are plain data. The Gemini
    client and the knowledge base directory are the collaborators of
    section [RAG]; the state behind [chroma_client] is the [store] of the
    [World]. *)
Record SATKnowledgeRAG : Type := mkRAG {
  knowledge_base_path : string;
  collection_name : string;
  collection : string
}.

(** [[0.0] * 768] *)
Definition ZERO_VECTOR : list float := repeat 0%float 768.

(** The [where] clause built by [search]. *)
Definition where_clause (subject_filter : string) : option (gmap string string) :=
  if bool_decide (subject_filter ∈ ["math"; "english"])
  then Some {[ "subject" := subject_filter ]}
  else None.

(** The dictionary built by [search] for hit number [i]. *)
Definition format_result (results : QueryResult) (i : nat) : outcome SearchResult :=
  let? documents0 := index (documents results) 0 in
  let? document := index documents0 i in
  let? metadatas0 := index (metadatas results) 0 in
  let? md := index metadatas0 i in
  let? distances0 := index (distances results) 0 in
  let? dist := index distances0 i in
  Ok {| content := document;
        metadata := md;
        similarity_score := (1 - dist)%float;
        title := default "Unknown" (md !! "title");
        subject := default "Unknown" (md !! "subject");
        type := default "Unknown" (md !! "type");
        file_path := default "Unknown" (md !! "file_path") |}.

(** The formatting part of [search]. *)
Definition format_results (results : QueryResult) : outcome (list SearchResult) :=
  let? documents0 := index (documents results) 0 in
  match documents0 with
  | [] => Ok []
  | _ :: _ => for_each (format_result results) (seq 0 (length documents0))
  end.

Section RAG.

(** [self.client.models.embed_content(model='text-embedding-004',
    contents=text)]: the [values] of each of [result.embeddings], or the
    exception the call raises. *)
Variable embed_content : string -> outcome (list (list float)).

(** The knowledge base directory, as [_build_knowledge_index] sees it:
    [None] when [subject_path.exists()] is false; otherwise the outcome of
    [_process_subject_directory] on [knowledge_base_path / subject], which
    is either what it appends, one (content, metadata, id) triple per
    non-empty markdown file in traversal order, or the exception it raises
    ([iterdir] raises when the path is a regular file or cannot be
    listed). The walk over topics and subtopics, the titles derived from
    file names and the fresh [uuid4] ids stay behind this parameter. *)
Variable scan_subject :
  string -> string -> option (outcome (list (string * gmap string string * string))).

(** The vector store's native distance. *)
Variable distance : list float -> list float -> float.

(** The body of the loop of [_generate_embeddings]: one provider call,
    with the zero vector as fallback. *)
Definition embed_text (text : string) : M (list float) :=
  try_except
    (let! _ := log (EvEmbed text) in
     lift (let? embeddings := embed_content text in index embeddings 0))
    (fun _ => m_ret ZERO_VECTOR).

Fixpoint generate_embeddings_loop (texts : list string)
    (embeddings : list (list float)) : M (list (list float)) :=
  match texts with
  | [] => m_ret embeddings
  | text :: rest =>
      let! v := embed_text text in
      generate_embeddings_loop rest (embeddings ++ [v])
  end.

Definition _generate_embeddings (self : SATKnowledgeRAG) (texts : list string)
    : M (list (list float)) :=
  generate_embeddings_loop texts [].

Definition _generate_query_embedding (self : SATKnowledgeRAG) (query : string)
    : M (list float) :=
  try_except
    (let! _ := log (EvEmbed query) in
     lift (let? embeddings := embed_content query in index embeddings 0))
    (fun _ => m_ret ZERO_VECTOR).

(** The loop over the subjects of [_build_knowledge_index]; the
    accumulator is the three parallel lists. An exception raised by the
    walk of a subject directory is not caught: it ends the loop. *)
Fixpoint process_subjects (self : SATKnowledgeRAG) (subjects : list string)
    (acc : list string * list (gmap string string) * list string)
    : M (list string * list (gmap string string) * list string) :=
  match subjects with
  | [] => m_ret acc
  | subject :: rest =>
      let! _ := log (EvScan (knowledge_base_path self) subject) in
      match scan_subject (knowledge_base_path self) subject with
      | None => process_subjects self rest acc
      | Some (Ok found) =>
          process_subjects self rest
            (acc.1.1 ++ map (fun t => t.1.1) found,
             acc.1.2 ++ map (fun t => t.1.2) found,
             acc.2 ++ map (fun t => t.2) found)
      | Some (Raise e) => lift (Raise e)
      end
  end.

Definition _build_knowledge_index (self : SATKnowledgeRAG) : M unit :=
  let! collected := process_subjects self ["math"; "english"] ([], [], []) in
  match collected.1.1 with
  | [] => m_ret tt
  | _ :: _ =>
      let! embeddings := _generate_embeddings self collected.1.1 in
      Chroma.add (collection self) collected.1.1 collected.1.2 embeddings
        collected.2
  end.

Definition __init__ (knowledge_base_path collection_name : string)
    : M SATKnowledgeRAG :=
  try_except
    (let! c := Chroma.get_collection collection_name in
     m_ret (mkRAG knowledge_base_path collection_name c))
    (fun _ =>
       let! c := Chroma.create_collection collection_name in
       let self := mkRAG knowledge_base_path collection_name c in
       let! _ := _build_knowledge_index self in
       m_ret self).

Definition rebuild_index (self : SATKnowledgeRAG) : M SATKnowledgeRAG :=
  let! _ := try_except (Chroma.delete_collection (collection_name self))
                       (fun _ => m_ret tt) in
  let! c := Chroma.create_collection (collection_name self) in
  let self' := mkRAG (knowledge_base_path self) (collection_name self) c in
  let! _ := _build_knowledge_index self' in
  m_ret self'.

Definition search (self : SATKnowledgeRAG) (query subject_filter : string)
    (max_results : Z) : M (list SearchResult) :=
  try_except
    (let! query_embedding := _generate_query_embedding self query in
     let! results :=
       Chroma.query distance (collection self) [query_embedding] max_results
         (where_clause subject_filter) in
     lift (format_results results))
    (fun _ => m_ret []).

Definition get_relevant_context (self : SATKnowledgeRAG)
    (query subject_filter : string) (max_context_length : Z) : M string :=
  let! results := search self query subject_filter 3 in
  m_ret (assemble_context results max_context_length).

End RAG.

(** ** Sample collaborators and inputs *)

Module Samples.

(** A provider with 768-dimensional answers that fails on one text. *)
Definition provider (text : string) : outcome (list (list float)) :=
  if String.eqb text "unreadable"
  then Raise (ProviderError "quota exceeded")
  else Ok [repeat 0.5%float 768].

(** A provider with 3-dimensional answers that fails on the same text. *)
Definition small_provider (text : string) : outcome (list (list float)) :=
  if String.eqb text "unreadable"
  then Raise (ProviderError "quota exceeded")
  else Ok [[1%float; 0%float; 0%float]].

Definition doc (subject title text id : string)
    : string * gmap string string * string :=
  (text,
   {[ "subject" := subject; "type" := "topic_notes"; "title" := title;
      "file_path" := id ]},
   id).

(** A knowledge base with two math documents and one english document. *)
Definition knowledge_base (path subject : string)
    : option (outcome (list (string * gmap string string * string))) :=
  if String.eqb subject "math" then
    Some (Ok [doc "math" "Algebra Study Notes" "linear equations" "m1";
              doc "math" "Geometry Study Notes" "unreadable" "m2"])
  else if String.eqb subject "english" then
    Some (Ok [doc "english" "Grammar Study Notes" "comma rules" "e1"])
  else None.

(** Squared Euclidean distance. *)
Definition l2 (a b : list float) : float :=
  foldr (fun p acc => ((p.1 - p.2) * (p.1 - p.2) + acc)%float) 0%float
        (zip a b).

Definition rag : SATKnowledgeRAG := mkRAG "kb" "sat_knowledge" "sat_knowledge".

(** Nothing stored, nothing called yet. *)
Definition fresh : World := mkWorld ∅ [].

(** The world after a first construction on [fresh]. *)
Definition indexed : World :=
  (__init__ provider knowledge_base "kb" "sat_knowledge" fresh).2.

Fixpoint replicate_string (n : nat) (s : string) : string :=
  match n with
  | O => EmptyString
  | S n' => s +:+ replicate_string n' s
  end.

Definition hit (title content : string) : SearchResult :=
  {| content := content;
     metadata := {[ "subject" := "math"; "type" := "topic_notes";
                    "title" := title ]};
     similarity_score := 0.75%float;
     title := title;
     subject := "math";
     type := "topic_notes";
     file_path := "Unknown" |}.

(** A hit whose header alone takes 228 characters. *)
Definition long_header : SearchResult :=
  hit (replicate_string 200 "T") "abc".

Definition short : SearchResult := hit "Algebra" "linear equations".

End Samples.

(** The value [current_length] has after the blocks [context_parts] were
    emitted: each block counts its own length and 9 more (the buffer of 10,
    less the newline between header and content). *)
Definition running_length (context_parts : list string) : Z :=
  foldr (fun block acc => Py.len block + 9 + acc) 0 context_parts.

(** The world after further external calls. *)
Definition logged (w : World) (events : list Event) : World :=
  mkWorld (store w) (trace w ++ events).

(** The vector a text ends up with: the first vector of the provider's
    answer, or the zero vector when the call raises or answers with no
    vector at all. *)
Definition embedding_of (embed_content : string -> outcome (list (list float)))
    (text : string) : list float :=
  match embed_content text with
  | Ok (v :: _) => v
  | Ok [] => ZERO_VECTOR
  | Raise _ => ZERO_VECTOR
  end.

(** The formatted result for a stored entry returned for query vector [q]. *)
Definition hit_of (distance : list float -> list float -> float)
    (q : list float) (e : Entry) : SearchResult :=
  {| content := entry_document e;
     metadata := entry_metadata e;
     similarity_score := (1 - distance q (entry_embedding e))%float;
     title := default "Unknown" (entry_metadata e !! "title");
     subject := default "Unknown" (entry_metadata e !! "subject");
     type := default "Unknown" (entry_metadata e !! "type");
     file_path := default "Unknown" (entry_metadata e !! "file_path") |}.

(** The world in which collection [name] is present and empty. *)
Definition cleared (name : string) (w : World) : World :=
  mkWorld (<[name := []]> (store w)) (trace w).

(** ** What the properties below speak of *)

(** What the results would add to the running length if each were emitted
    whole. *)
Definition full_length (results : list SearchResult) : Z :=
  foldr (fun r acc => Py.len (source_info r) + Py.len (content r) + 10 + acc)
        0 results.

(** The block of a result emitted whole. *)
Definition whole_block (result : SearchResult) : string :=
  source_info result +:+ Py.NL +:+ content result.

(** Each emitted block is the block of one of the results: its header, a
    newline, and its content whole or cut and marked. *)
Definition block_of (result : SearchResult) (block : string) : Prop :=
  exists shown,
    block = source_info result +:+ Py.NL +:+ shown
    /\ (shown = content result
        \/ exists kept dropped,
             content result = kept +:+ dropped /\ shown = kept +:+ "...").

(** What one subject directory contributes to the build: nothing when it
    does not exist, else what its walk appends or the exception the walk
    raises. *)
Definition subject_documents
    (scan_subject :
       string -> string -> option (outcome (list (string * gmap string string * string))))
    (self : SATKnowledgeRAG) (subject : string)
    : outcome (list (string * gmap string string * string)) :=
  match scan_subject (knowledge_base_path self) subject with
  | None => Ok []
  | Some found => found
  end.

(** The (content, metadata, id) triples the build collects: those of the
    math directory, then those of the english directory; or the first
    exception raised by a walk. *)
Definition scanned
    (scan_subject :
       string -> string -> option (outcome (list (string * gmap string string * string))))
    (self : SATKnowledgeRAG)
    : outcome (list (string * gmap string string * string)) :=
  let? math := subject_documents scan_subject self "math" in
  let? english := subject_documents scan_subject self "english" in
  Ok (math ++ english).

(** The scans made by the build: the english directory is looked at only
    when the walk of the math directory has not raised. *)
Definition scans
    (scan_subject :
       string -> string -> option (outcome (list (string * gmap string string * string))))
    (self : SATKnowledgeRAG) : list Event :=
  EvScan (knowledge_base_path self) "math"
  :: match subject_documents scan_subject self "math" with
     | Ok _ => [EvScan (knowledge_base_path self) "english"]
     | Raise _ => []
     end.

(** The entry the build stores for a collected triple. *)
Definition entry_of (embed_content : string -> outcome (list (list float)))
    (t : string * gmap string string * string) : Entry :=
  {| entry_id := t.2;
     entry_embedding := embedding_of embed_content t.1.1;
     entry_document := t.1.1;
     entry_metadata := t.1.2 |}.


(** ** Statistics and the callers of the retrieval system *)

(** The values held by the dictionaries that [get_stats] and the tools of
    the executor return. *)
Inductive PyValue : Type :=
| VStr (s : string)
| VInt (n : Z)
| VResults (results : list SearchResult).

(** Modelled from the spec: [count() -> integer] of the VectorIndex
    interface, the number of stored entries; it fails when the collection
    is missing. *)
Definition collection_count (collection : string) : M Z :=
  fun w =>
    match store w !! collection with
    | Some entries => (Ok (Z.of_nat (length entries)), w)
    | None => (Raise (NotFoundError collection), w)
    end.

(** The executor, as far as the retrieval tools use it
    ([executor.py], class [Executor]). *)
Record Executor : Type := mkExecutor {
  rag_system : SATKnowledgeRAG
}.

Section Callers.

Variable embed_content : string -> outcome (list (list float)).
Variable scan_subject :
  string -> string -> option (outcome (list (string * gmap string string * string))).
Variable distance : list float -> list float -> float.

(** [str(e)] for an exception [e]. *)
Variable str_exn : exn -> string.

Definition get_stats (self : SATKnowledgeRAG) : M (gmap string PyValue) :=
  try_except
    (let! n := collection_count (collection self) in
     m_ret {[ "total_documents" := VInt n;
              "collection_name" := VStr (collection_name self);
              "embedding_model" := VStr "text-embedding-004 (Gemini)" ]})
    (fun e => m_ret {[ "error" := VStr (str_exn e) ]}).

(** [create_rag_system(api_key)]: construction with the default knowledge
    base path and collection name. *)
Definition create_rag_system : M SATKnowledgeRAG :=
  __init__ embed_content scan_subject "../satKnowledge" "sat_knowledge".

(** [Executor._search_knowledge_rag] *)
Definition _search_knowledge_rag (self : Executor) (query subject : string)
    (max_results : Z) : M (gmap string PyValue) :=
  try_except
    (let! results :=
       search embed_content distance (rag_system self) query subject max_results in
     m_ret {[ "status" := VStr "success";
              "query" := VStr query;
              "subject_filter" := VStr subject;
              "results_count" := VInt (Z.of_nat (length results));
              "results" := VResults results;
              "search_method" := VStr "RAG (semantic search)" ]})
    (fun e => m_ret {[ "status" := VStr "error"; "message" := VStr (str_exn e) ]}).

(** [Executor._get_context] *)
Definition _get_context (self : Executor) (query subject : string)
    (max_context_length : Z) : M (gmap string PyValue) :=
  try_except
    (let! context :=
       get_relevant_context embed_content distance (rag_system self) query
         subject max_context_length in
     m_ret {[ "status" := VStr "success";
              "query" := VStr query;
              "subject_filter" := VStr subject;
              "context" := VStr context;
              "context_length" := VInt (Py.len context) ]})
    (fun e => m_ret {[ "status" := VStr "error"; "message" := VStr (str_exn e) ]}).

(** [update_embedding(file_path)] of [knowledge_editor.py]; [API_KEY] is the
    value of the environment variable, if set, and [session_rag] the
    [rag_system] of the session state, if any. *)
Definition update_embedding (API_KEY : option string)
    (session_rag : option SATKnowledgeRAG) (file_path : string) : M bool :=
  match API_KEY, session_rag with
  | Some key, Some rag =>
      if String.eqb key EmptyString then m_ret false
      else
        try_except
          (let! _ := rebuild_index embed_content scan_subject rag in m_ret true)
          (fun _ => m_ret false)
  | _, _ => m_ret false
  end.

End Callers.

(** ** More of Python's strings and paths *)

Module PyStr.

Definition DOT : Ascii.ascii := Ascii.ascii_of_nat 46.
Definition HYPHEN : Ascii.ascii := Ascii.ascii_of_nat 45.
Definition SPACE : Ascii.ascii := Ascii.ascii_of_nat 32.

(** [c.isspace()] for a character below 256: tab to carriage return, the
    four separators 28 to 31, the space, next-line and the no-break space. *)
Definition isspace (c : Ascii.ascii) : bool :=
  let n := Ascii.nat_of_ascii c in
  ((9 <=? n)%nat && (n <=? 13)%nat) || ((28 <=? n)%nat && (n <=? 32)%nat)
  || (n =? 133)%nat || (n =? 160)%nat.

(** [s.lstrip()] *)
Fixpoint lstrip (s : string) : string :=
  match s with
  | EmptyString => EmptyString
  | String c s' => if isspace c then lstrip s' else s
  end.

(** [s.rstrip()] *)
Fixpoint rstrip (s : string) : string :=
  match s with
  | EmptyString => EmptyString
  | String c s' =>
      match rstrip s' with
      | EmptyString => if isspace c then EmptyString else String c EmptyString
      | String c' r => String c (String c' r)
      end
  end.

(** [s.strip()] *)
Definition strip (s : string) : string := rstrip (lstrip s).

(** [s.replace(old, new)] for one-character [old] and [new]. *)
Fixpoint replace_char (old new : Ascii.ascii) (s : string) : string :=
  match s with
  | EmptyString => EmptyString
  | String c s' =>
      String (if Ascii.eqb c old then new else c) (replace_char old new s')
  end.

(** [s.rfind(c)] for a one-character [c]: the last position of [c], or -1. *)
Fixpoint rfind_char (s : string) (c : Ascii.ascii) : Z :=
  match s with
  | EmptyString => -1
  | String x s' =>
      let r := rfind_char s' c in
      if r >=? 0 then r + 1 else if Ascii.eqb x c then 0 else -1
  end.

(** All but the first [n] characters of [s]. *)
Fixpoint drop (n : nat) (s : string) : string :=
  match n, s with
  | O, _ => s
  | S _, EmptyString => EmptyString
  | S n', String _ s' => drop n' s'
  end.

(** [s[start:]]: a negative [start] counts from the end. *)
Definition slice_from (s : string) (start : Z) : string :=
  if 0 <=? start then drop (Z.to_nat start) s
  else drop (Z.to_nat (Py.len s + start)) s.

End PyStr.

Module PyPath.

(** [path.suffix] computed from [path.name]: the part from the last dot on,
    when that dot is neither the first nor the last character. *)
Definition suffix (name : string) : string :=
  let i := PyStr.rfind_char name PyStr.DOT in
  if (0 <? i) && (i <? Py.len name - 1) then PyStr.slice_from name i
  else EmptyString.

(** [path.stem] computed from [path.name]. *)
Definition stem (name : string) : string :=
  let i := PyStr.rfind_char name PyStr.DOT in
  if (0 <? i) && (i <? Py.len name - 1) then Py.slice_to name i
  else name.

(** [str(parent / name)] from [str(parent)], for a one-component [name] on
    a POSIX system. *)
Definition joinpath (parent name : string) : string :=
  if String.eqb parent "." then name
  else if Py.endswith parent "/" then parent +:+ name
  else parent +:+ "/" +:+ name.

End PyPath.

(** ** The knowledge base directory *)

(** What is found at a path: a file, with the text that reading it as UTF-8
    gives or the exception that raises, or a directory with its entries in
    the order [iterdir] yields them. *)
#[warnings="-register-all"] Inductive Node : Type :=
| File (text : outcome string)
| Dir (entries : list (string * Node)).

(** [path.is_file()] *)
Definition is_file (node : Node) : bool :=
  match node with
  | File _ => true
  | Dir _ => false
  end.

(** [path.is_dir()] *)
Definition is_dir (node : Node) : bool :=
  match node with
  | File _ => false
  | Dir _ => true
  end.

(** What is found at [parent / name], if anything ([exists()]); nothing is
    found below a file. *)
Definition child (parent : Node) (name : string) : option Node :=
  match parent with
  | File _ => None
  | Dir entries =>
      snd <$> List.find (fun entry => String.eqb entry.1 name) entries
  end.

(** [_read_markdown_file]: the text of the file, or the empty string when
    reading raises (as it does for a directory). *)
Definition _read_markdown_file (file : Node) : string :=
  match file with
  | File (Ok text) => text
  | File (Raise _) => EmptyString
  | Dir _ => EmptyString
  end.

(** The outcome of a directory walk: [iterdir] raises on what is not a
    directory. *)
Inductive walked (A : Type) : Type :=
| Walked (a : A)
| NotADirectoryError (path : string).
Arguments Walked {A} a.
Arguments NotADirectoryError {A} path.

(** The three parallel lists [documents], [metadatas] and [ids]. *)
Definition Lists : Type :=
  list string * list (gmap string string) * list string.

(** Appending the lists of [b] to those of [a]. *)
Definition lists_app (a b : Lists) : Lists :=
  (a.1.1 ++ b.1.1, a.1.2 ++ b.1.2, a.2 ++ b.2).

(** The three lists have one length. *)
Definition aligned (lists : Lists) : Prop :=
  length lists.1.1 = length lists.1.2 /\ length lists.1.2 = length lists.2.

(** The document types the walk assigns. *)
Definition DOCUMENT_TYPES : list string :=
  ["subject_overview"; "subject_notes";
   "topic_overview"; "topic_notes"; "topic_content";
   "subtopic_overview"; "subtopic_notes"; "subtopic_content"].

(** A metadata dictionary as the walk of [subject] builds them. *)
Definition metadata_of_subject (subject : string) (md : gmap string string)
    : Prop :=
  md !! "subject" = Some subject
  /\ (exists doc_type, md !! "type" = Some doc_type /\ doc_type ∈ DOCUMENT_TYPES)
  /\ is_Some (md !! "title")
  /\ is_Some (md !! "file_path").

(** What the walk of [subject] keeps true of its lists: they are aligned,
    no document is blank, and every metadata dictionary is well formed. *)
Definition tidy (subject : string) (lists : Lists) : Prop :=
  aligned lists
  /\ Forall (fun doc => PyStr.strip doc <> EmptyString) lists.1.1
  /\ Forall (metadata_of_subject subject) lists.1.2.

(** The lists a walk gives, the empty lists when it fails. *)
Definition walked_lists (outcome_of_walk : walked Lists) : Lists :=
  match outcome_of_walk with
  | Walked new => new
  | NotADirectoryError _ => ([], [], [])
  end.

Section Traversal.

(** [str.capitalize] and [str.title]. *)
Variable str_capitalize : string -> string.
Variable str_title : string -> string.

(** [str(uuid.uuid4())] as drawn when the document read from the given
    path is appended. *)
Variable uuid4 : string -> string.

(** The three [append] calls for one document. *)
Definition append_document (lists : Lists) (content : string)
    (metadata : gmap string string) (path : string) : Lists :=
  (lists.1.1 ++ [content], lists.1.2 ++ [metadata], lists.2 ++ [uuid4 path]).

(** [name.replace('-', ' ').title()] *)
Definition display_name (name : string) : string :=
  str_title (PyStr.replace_char PyStr.HYPHEN PyStr.SPACE name).

(** The body of the loop of [_process_subtopic_directory]. *)
Definition process_subtopic_entry (subject topic_name subtopic_name
    subtopic_path : string) (lists : Lists) (entry : string * Node) : Lists :=
  if is_file entry.2 && String.eqb (PyPath.suffix entry.1) ".md" then
    let content := _read_markdown_file entry.2 in
    if negb (String.eqb (PyStr.strip content) EmptyString) then
      let kind :=
        if Py.endswith entry.1 "-overview.md"
        then ("subtopic_overview", display_name subtopic_name +:+ " Overview")
        else if Py.endswith entry.1 "-study-notes.md"
        then ("subtopic_notes", display_name subtopic_name +:+ " Study Notes")
        else ("subtopic_content",
              display_name subtopic_name +:+ " - " +:+ PyPath.stem entry.1) in
      append_document lists content
        {[ "subject" := subject;
           "topic" := topic_name;
           "subtopic" := subtopic_name;
           "type" := kind.1;
           "title" := kind.2;
           "file_path" := PyPath.joinpath subtopic_path entry.1 ]}
        (PyPath.joinpath subtopic_path entry.1)
    else lists
  else lists.

Definition _process_subtopic_directory (subject topic_name subtopic_name
    subtopic_path : string) (entries : list (string * Node)) (lists : Lists)
    : Lists :=
  fold_left (process_subtopic_entry subject topic_name subtopic_name subtopic_path)
            entries lists.

(** The body of the loop of [_process_topic_directory]. *)
Definition process_topic_entry (subject topic_name topic_path : string)
    (lists : Lists) (entry : string * Node) : Lists :=
  if is_file entry.2 && String.eqb (PyPath.suffix entry.1) ".md" then
    let content := _read_markdown_file entry.2 in
    if negb (String.eqb (PyStr.strip content) EmptyString) then
      let kind :=
        if Py.endswith entry.1 "-overview.md"
        then ("topic_overview", display_name topic_name +:+ " Overview")
        else if Py.endswith entry.1 "-study-notes.md"
        then ("topic_notes", display_name topic_name +:+ " Study Notes")
        else ("topic_content",
              display_name topic_name +:+ " - " +:+ PyPath.stem entry.1) in
      append_document lists content
        {[ "subject" := subject;
           "topic" := topic_name;
           "type" := kind.1;
           "title" := kind.2;
           "file_path" := PyPath.joinpath topic_path entry.1 ]}
        (PyPath.joinpath topic_path entry.1)
    else lists
  else
    match entry.2 with
    | Dir subentries =>
        _process_subtopic_directory subject topic_name entry.1
          (PyPath.joinpath topic_path entry.1) subentries lists
    | File _ => lists
    end.

Definition _process_topic_directory (subject topic_name topic_path : string)
    (entries : list (string * Node)) (lists : Lists) : Lists :=
  fold_left (process_topic_entry subject topic_name topic_path) entries lists.

(** One of the two subject-level files of [_process_subject_directory]. *)
Definition process_subject_file (subject subject_path : string)
    (directory : Node) (file_name doc_type doc_title : string) (lists : Lists)
    : Lists :=
  match child directory file_name with
  | Some file =>
      let content := _read_markdown_file file in
      if negb (String.eqb (PyStr.strip content) EmptyString) then
        append_document lists content
          {[ "subject" := subject;
             "type" := doc_type;
             "title" := doc_title;
             "file_path" := PyPath.joinpath subject_path file_name ]}
          (PyPath.joinpath subject_path file_name)
      else lists
  | None => lists
  end.

(** The body of the loop over the topic directories. *)
Definition process_subject_entry (subject subject_path : string)
    (lists : Lists) (entry : string * Node) : Lists :=
  match entry.2 with
  | Dir subentries =>
      _process_topic_directory subject entry.1
        (PyPath.joinpath subject_path entry.1) subentries lists
  | File _ => lists
  end.

(** [_process_subject_directory], given what is found at [subject_path]. *)
Definition _process_subject_directory (subject subject_path : string)
    (directory : Node) (lists : Lists) : walked Lists :=
  let lists1 :=
    process_subject_file subject subject_path directory
      (subject +:+ "-overview.md") "subject_overview"
      (str_capitalize subject +:+ " Overview") lists in
  let lists2 :=
    process_subject_file subject subject_path directory
      (subject +:+ "-study-notes.md") "subject_notes"
      (str_capitalize subject +:+ " Study Notes") lists1 in
  match directory with
  | File _ => NotADirectoryError subject_path
  | Dir entries =>
      Walked (fold_left (process_subject_entry subject subject_path)
                        entries lists2)
  end.

End Traversal.


(** The (content, metadata, id) triples held by three aligned lists. *)
Definition triples (lists : Lists)
    : list (string * gmap string string * string) :=
  zip (zip lists.1.1 lists.1.2) lists.2.

(** The collaborator [scan_subject] of the build is the walk of the
    directory tree [root] found at the knowledge base path [kb], and that
    walk did not fail. *)
Definition reads (str_capitalize str_title uuid4 : string -> string)
    (scan_subject :
       string -> string -> option (outcome (list (string * gmap string string * string))))
    (root : Node) (kb : string) : Prop :=
  forall subject, subject ∈ ["math"; "english"] ->
    match child root subject with
    | None => scan_subject kb subject = None
    | Some directory =>
        exists new,
          _process_subject_directory str_capitalize str_title uuid4 subject
            (PyPath.joinpath kb subject) directory ([], [], []) = Walked new
          /\ scan_subject kb subject = Some (Ok (triples new))
    end.


(** ** More sample inputs *)

Module MoreSamples.

(** A knowledge base in which nothing is found. *)
Definition empty_knowledge_base (path subject : string)
    : option (outcome (list (string * gmap string string * string))) := None.

Definition upper (c : Ascii.ascii) : Ascii.ascii :=
  let n := Ascii.nat_of_ascii c in
  if (97 <=? n)%nat && (n <=? 122)%nat then Ascii.ascii_of_nat (n - 32) else c.

Definition lower (c : Ascii.ascii) : Ascii.ascii :=
  let n := Ascii.nat_of_ascii c in
  if (65 <=? n)%nat && (n <=? 90)%nat then Ascii.ascii_of_nat (n + 32) else c.

Definition is_letter (c : Ascii.ascii) : bool :=
  let n := Ascii.nat_of_ascii c in
  ((65 <=? n)%nat && (n <=? 90)%nat) || ((97 <=? n)%nat && (n <=? 122)%nat).

Fixpoint lower_all (s : string) : string :=
  match s with
  | EmptyString => EmptyString
  | String c s' => String (lower c) (lower_all s')
  end.

(** [str.capitalize] on ASCII text. *)
Definition ascii_capitalize (s : string) : string :=
  match s with
  | EmptyString => EmptyString
  | String c s' => String (upper c) (lower_all s')
  end.

Fixpoint title_from (inside_word : bool) (s : string) : string :=
  match s with
  | EmptyString => EmptyString
  | String c s' =>
      String (if is_letter c then (if inside_word then lower c else upper c) else c)
             (title_from (is_letter c) s')
  end.

(** [str.title] on ASCII text. *)
Definition ascii_title (s : string) : string := title_from false s.

(** An id per path. *)
Definition uuid4 (path : string) : string := "id:" +:+ path.

(** A knowledge base directory with a blank file, a stray file at the
    subject level, a file that cannot be read, a file that is not markdown
    and a directory below a subtopic. *)
Definition math_directory : Node :=
  Dir [("math-overview.md", File (Ok "Math overview"));
       ("math-study-notes.md", File (Ok "   "));
       ("extra.md", File (Ok "stray"));
       ("algebra",
        Dir [("algebra-overview.md", File (Ok "Algebra basics"));
             ("metadata.json", File (Ok "{}"));
             ("linear-equations",
              Dir [("linear-equations-study-notes.md", File (Ok "Solve for x"));
                   ("worked-example.md", File (Ok "x = 2"));
                   ("broken.md", File (Raise ValueError));
                   ("deeper", Dir [("lost.md", File (Ok "never read"))])])])].

Definition root : Node :=
  Dir [("math", math_directory);
       ("english",
        Dir [("english-overview.md", File (Ok "English overview"))])].

(** The collaborator of the build that walks the directory tree [tree]. *)
Definition scan_tree (tree : Node) (kb subject : string)
    : option (outcome (list (string * gmap string string * string))) :=
  match child tree subject with
  | None => None
  | Some directory =>
      match _process_subject_directory ascii_capitalize ascii_title uuid4 subject
              (PyPath.joinpath kb subject) directory ([], [], []) with
      | Walked new => Some (Ok (triples new))
      | NotADirectoryError path => Some (Raise (OSError path))
      end
  end.

(** The collaborator of the build that walks [root]. *)
Definition walk_scan (kb subject : string)
    : option (outcome (list (string * gmap string string * string))) :=
  scan_tree root kb subject.

(** A knowledge base in which [math] is a regular file. *)
Definition misplaced_root : Node :=
  Dir [("math", File (Ok "Math notes"));
       ("english",
        Dir [("english-overview.md", File (Ok "English overview"))])].

(** What the walk of the math directory collects. *)
Definition math_walk : Lists :=
  walked_lists
    (_process_subject_directory ascii_capitalize ascii_title uuid4 "math" "kb/math"
       math_directory ([], [], [])).

(** A hit whose content has 400 characters. *)
Definition long_content : SearchResult :=
  Samples.hit "Algebra" (Samples.replicate_string 400 "x").

(** [str(e)] for the runs below. *)
Definition str_exn (e : exn) : string := "error".

End MoreSamples.

(** ** Strings: lengths *)

Lemma len_nonneg (s : string) : 0 <= Py.len s.
Proof. unfold Py.len. lia. Qed.

Lemma len_app (a b : string) : Py.len (a +:+ b) = Py.len a + Py.len b.
Proof.
  unfold Py.len. induction a as [|c a IH]; simpl.
  - reflexivity.
  - lia.
Qed.

Lemma len_NL : Py.len Py.NL = 1.
Proof. reflexivity. Qed.

Lemma len_SEPARATOR : Py.len SEPARATOR = 7.
Proof. reflexivity. Qed.

Lemma string_length_take (n : nat) (s : string) :
  String.length (Py.take n s) = Nat.min n (String.length s).
Proof.
  revert s. induction n as [|n IH]; intros [|c s]; simpl; try reflexivity.
  now rewrite IH.
Qed.

(** Cutting a longer string at a non-negative position keeps exactly that
    many characters. *)
Lemma len_slice_to (s : string) (stop : Z) :
  0 <= stop -> stop <= Py.len s -> Py.len (Py.slice_to s stop) = stop.
Proof.
  intros Hlo Hhi. unfold Py.slice_to.
  destruct (Z.leb_spec 0 stop); [|lia].
  unfold Py.len in *. rewrite string_length_take. lia.
Qed.

Lemma endswith_app (s suffix : string) : Py.endswith (s +:+ suffix) suffix = true.
Proof.
  induction s as [|c s IH].
  - simpl. destruct suffix; simpl; now rewrite ?Ascii.eqb_refl, ?String.eqb_refl.
  - change (String c s +:+ suffix) with (String c (s +:+ suffix)).
    cbn [Py.endswith]. rewrite IH. now destruct (String.eqb _ _).
Qed.

Lemma len_join_le (parts : list string) :
  Py.len (Py.join SEPARATOR parts) <= running_length parts
  /\ (parts <> [] -> Py.len (Py.join SEPARATOR parts) + 9 <= running_length parts).
Proof.
  induction parts as [|p rest [IH1 IH2]].
  - split; [reflexivity | congruence].
  - assert (Hp := len_nonneg p).
    destruct rest as [|q rest'].
    + cbn [Py.join running_length foldr]. split; intros; lia.
    + change (Py.join SEPARATOR (p :: q :: rest'))
        with (p +:+ SEPARATOR +:+ Py.join SEPARATOR (q :: rest')).
      change (running_length (p :: q :: rest'))
        with (Py.len p + 9 + running_length (q :: rest')).
      rewrite !len_app, len_SEPARATOR.
      assert (Py.len (Py.join SEPARATOR (q :: rest')) + 9
              <= running_length (q :: rest')) by (apply IH2; congruence).
      split; intros; lia.
Qed.

Lemma running_length_app (parts : list string) (block : string) :
  running_length (parts ++ [block]) = running_length parts + Py.len block + 9.
Proof.
  induction parts as [|p parts IH]; cbn [app running_length foldr] in *.
  - lia.
  - fold (running_length (parts ++ [block])). fold (running_length parts). lia.
Qed.

(** ** The assembly loop *)

Lemma len_fit_content (content : string) (available : Z) :
  0 <= available ->
  Py.len (fit_content content available) <= available + 3.
Proof.
  intros Ha. unfold fit_content.
  destruct (Z.gtb_spec (Py.len content) available) as [Hgt|Hle].
  - rewrite len_app, len_slice_to by lia. change (Py.len "...") with 3. lia.
  - lia.
Qed.

(** One iteration keeps [current_length] equal to the running length of the
    emitted blocks and never takes it past the maximum by more than the
    three characters of the truncation marker. *)
Lemma loop_body_invariant (max_context_length : Z) (parts : list string)
    (current_length : Z) (result : SearchResult) :
  current_length = running_length parts ->
  current_length <= max_context_length + 3 ->
  (loop_body max_context_length parts current_length result).2
    = running_length (loop_body max_context_length parts current_length result).1
  /\ (loop_body max_context_length parts current_length result).2
       <= max_context_length + 3.
Proof.
  intros Hrun Hmax. unfold loop_body.
  destruct (Z.gtb_spec (available_length max_context_length current_length result) 100)
    as [Hgt|Hle]; cbn [fst snd].
  - assert (Hfit := len_fit_content (content result)
                      (available_length max_context_length current_length result)).
    rewrite running_length_app, !len_app, len_NL.
    unfold available_length in *. lia.
  - auto.
Qed.

Lemma assemble_loop_invariant (max_context_length : Z)
    (results : list SearchResult) :
  forall (parts : list string) (current_length : Z),
    current_length = running_length parts ->
    current_length <= max_context_length + 3 ->
    (assemble_loop max_context_length results parts current_length).2
      = running_length (assemble_loop max_context_length results parts current_length).1
    /\ (assemble_loop max_context_length results parts current_length).2
         <= max_context_length + 3.
Proof.
  induction results as [|result rest IH]; intros parts current_length Hrun Hmax.
  - cbn. auto.
  - cbn [assemble_loop].
    destruct (loop_body_invariant max_context_length parts current_length result
                Hrun Hmax) as [H1 H2].
    destruct (loop_body max_context_length parts current_length result)
      as [parts' current_length'].
    cbn [fst snd] in H1, H2.
    destruct (current_length' >=? max_context_length); [cbn; auto|].
    now apply IH.
Qed.

(** Once the running length has reached the maximum, the loop emits nothing
    more, whatever results are left. *)
Lemma assemble_loop_exhausted (max_context_length : Z)
    (results : list SearchResult) (parts : list string) (current_length : Z) :
  max_context_length <= current_length ->
  assemble_loop max_context_length results parts current_length
    = (parts, current_length).
Proof.
  intros Hfull. destruct results as [|result rest]; [reflexivity|].
  cbn [assemble_loop]. unfold loop_body.
  assert (Hsi := len_nonneg (source_info result)).
  destruct (Z.gtb_spec (available_length max_context_length current_length result) 100)
    as [Hgt|Hle].
  - unfold available_length in Hgt. lia.
  - destruct (Z.geb_spec current_length max_context_length); [reflexivity | lia].
Qed.

(** A result whose available length is at most 100 leaves the state as it
    is. *)
Lemma loop_body_skip (max_context_length : Z) (parts : list string)
    (current_length : Z) (result : SearchResult) :
  available_length max_context_length current_length result <= 100 ->
  loop_body max_context_length parts current_length result
    = (parts, current_length).
Proof.
  intros Hle. unfold loop_body.
  destruct (Z.gtb_spec (available_length max_context_length current_length result) 100);
    [lia | reflexivity].
Qed.

(** The loop emits at most one block per result. *)
Lemma assemble_loop_length (max_context_length : Z)
    (results : list SearchResult) :
  forall (parts : list string) (current_length : Z),
    (length (assemble_loop max_context_length results parts current_length).1
     <= length parts + length results)%nat.
Proof.
  induction results as [|result rest IH]; intros parts current_length.
  - cbn. lia.
  - cbn [assemble_loop].
    assert (Hbody : (length (loop_body max_context_length parts current_length result).1
                     <= S (length parts))%nat).
    { unfold loop_body. destruct (_ >? 100); cbn [fst].
      - rewrite length_app. cbn. lia.
      - lia. }
    destruct (loop_body max_context_length parts current_length result)
      as [parts' current_length'].
    cbn [fst] in Hbody.
    destruct (current_length' >=? max_context_length).
    + cbn [fst length]. lia.
    + specialize (IH parts' current_length'). cbn [length]. lia.
Qed.

(** When every result fails the budget check the loop emits nothing. *)
Lemma assemble_loop_all_skipped (max_context_length : Z)
    (results : list SearchResult) (parts : list string) (current_length : Z) :
  Forall (fun r => available_length max_context_length current_length r <= 100)
         results ->
  assemble_loop max_context_length results parts current_length
    = (parts, current_length).
Proof.
  induction 1 as [|result rest Hr _ IH]; [reflexivity|].
  cbn [assemble_loop]. rewrite loop_body_skip by exact Hr.
  destruct (current_length >=? max_context_length); [reflexivity | exact IH].
Qed.

(** ** The embedding step *)

Section Properties.

Variable embed_content : string -> outcome (list (list float)).
Variable scan_subject :
  string -> string -> option (outcome (list (string * gmap string string * string))).
Variable distance : list float -> list float -> float.

Lemma logged_nil (w : World) : logged w [] = w.
Proof. destruct w. unfold logged. cbn. now rewrite app_nil_r. Qed.

Lemma logged_logged (w : World) (evs evs' : list Event) :
  logged (logged w evs) evs' = logged w (evs ++ evs').
Proof. unfold logged. cbn. now rewrite app_assoc. Qed.

(** One text: the provider is called once and the loop body never
    raises. *)
Lemma embed_text_spec (text : string) (w : World) :
  embed_text embed_content text w
    = (Ok (embedding_of embed_content text), logged w [EvEmbed text]).
Proof.
  unfold embed_text, try_except, m_bind, log, lift, m_ret, embedding_of, logged.
  cbn. destruct (embed_content text) as [[|v vs]|e]; reflexivity.
Qed.

Lemma generate_embeddings_loop_spec (texts : list string) :
  forall (embeddings : list (list float)) (w : World),
    generate_embeddings_loop embed_content texts embeddings w
      = (Ok (embeddings ++ map (embedding_of embed_content) texts),
         logged w (map EvEmbed texts)).
Proof.
  induction texts as [|text rest IH]; intros embeddings w.
  - cbn. unfold m_ret. now rewrite app_nil_r, logged_nil.
  - cbn [generate_embeddings_loop map]. unfold m_bind.
    rewrite embed_text_spec, IH, logged_logged, <- app_assoc. reflexivity.
Qed.

Lemma generate_embeddings_spec (self : SATKnowledgeRAG) (texts : list string)
    (w : World) :
  _generate_embeddings embed_content self texts w
    = (Ok (map (embedding_of embed_content) texts),
       logged w (map EvEmbed texts)).
Proof. unfold _generate_embeddings. now rewrite generate_embeddings_loop_spec. Qed.

Lemma generate_query_embedding_spec (self : SATKnowledgeRAG) (query : string)
    (w : World) :
  _generate_query_embedding embed_content self query w
    = (Ok (embedding_of embed_content query), logged w [EvEmbed query]).
Proof. apply embed_text_spec. Qed.

Lemma ZERO_VECTOR_length : length ZERO_VECTOR = 768%nat.
Proof. unfold ZERO_VECTOR. apply repeat_length. Qed.

Lemma ZERO_VECTOR_zero : Forall (fun x => x = 0%float) ZERO_VECTOR.
Proof. unfold ZERO_VECTOR. apply Forall_forall. intros x Hx.
       apply list_elem_of_In in Hx. now apply repeat_spec in Hx. Qed.

(** ** The vector store's query *)

Lemma insert_ranked_perm (q : list float) (e : Entry) (ranked : list Entry) :
  Chroma.insert_ranked distance q e ranked ≡ₚ e :: ranked.
Proof.
  induction ranked as [|e' rest IH]; cbn; [done|].
  destruct (PrimFloat.leb _ _); [done|].
  rewrite IH. apply Permutation_swap.
Qed.

Lemma rank_perm (q : list float) (entries : list Entry) :
  Chroma.rank distance q entries ≡ₚ entries.
Proof.
  induction entries as [|e rest IH]; cbn; [done|].
  fold (Chroma.rank distance q rest). rewrite insert_ranked_perm.
  now constructor.
Qed.

(** Top-k: never more hits than requested. *)
Lemma nearest_length (entries : list Entry) (n_results : Z)
    (where_ : option (gmap string string)) (q : list float) :
  (length (Chroma.nearest distance entries n_results where_ q)
   <= Z.to_nat n_results)%nat.
Proof. unfold Chroma.nearest. rewrite length_take. lia. Qed.

(** Every hit is a stored entry that passes the filter. *)
Lemma nearest_matches (entries : list Entry) (n_results : Z)
    (where_ : option (gmap string string)) (q : list float) (e : Entry) :
  e ∈ Chroma.nearest distance entries n_results where_ q ->
  e ∈ entries /\ Chroma.matches where_ (entry_metadata e).
Proof.
  unfold Chroma.nearest. intros Hin.
  apply elem_of_take in Hin as (i & Hi & _).
  apply list_elem_of_lookup_2 in Hi.
  rewrite rank_perm in Hi.
  apply list_elem_of_filter in Hi. tauto.
Qed.

Lemma for_each_seq {A B : Type} (f : nat -> outcome B) (g : A -> B)
    (l : list A) :
  forall start : nat,
    (forall i x, l !! i = Some x -> f (start + i)%nat = Ok (g x)) ->
    for_each f (seq start (length l)) = Ok (map g l).
Proof.
  induction l as [|x l IH]; intros start Hf; [reflexivity|].
  cbn [length seq for_each map]. unfold obind.
  rewrite <- (Nat.add_0_r start) at 1.
  rewrite (Hf 0%nat x eq_refl), (IH (S start)); [reflexivity|].
  intros i y Hy. replace (S start + i)%nat with (start + S i)%nat by lia.
  now apply Hf.
Qed.

(** Formatting the answer to a single query vector gives one result per
    hit, in rank order. *)
Lemma format_results_spec (q : list float) (row : list Entry) :
  format_results
    {| documents := [map entry_document row];
       metadatas := [map entry_metadata row];
       distances := [map (fun e => distance q (entry_embedding e)) row] |}
  = Ok (map (hit_of distance q) row).
Proof.
  set (results := {| documents := [map entry_document row];
                     metadatas := [map entry_metadata row];
                     distances :=
                       [map (fun e => distance q (entry_embedding e)) row] |}).
  assert (Hall : for_each (format_result results)
                   (seq 0 (length (map entry_document row)))
                 = Ok (map (hit_of distance q) row)).
  { rewrite length_map.
    apply (for_each_seq _ (hit_of distance q) row 0%nat).
    intros i x Hx. cbn [Nat.add]. unfold format_result, index, results.
    cbn [documents metadatas distances]. cbn [lookup list_lookup obind].
    change (map ?f row) with (f <$> row).
    rewrite !list_lookup_fmap, Hx. reflexivity. }
  unfold format_results.
  change (index (documents results) 0) with (Ok (A := list string) (map entry_document row)).
  cbn [obind]. destruct row as [|e row]; [reflexivity | exact Hall].
Qed.

(** ** Search *)

(** The world after the query: only the call itself is recorded. *)
Lemma query_world (name : string) (qs : list (list float)) (n_results : Z)
    (where_ : option (gmap string string)) (w : World) :
  (Chroma.query distance name qs n_results where_ w).2
    = logged w [EvQuery name n_results where_].
Proof.
  unfold Chroma.query, m_bind, log. cbn.
  destruct (store w !! name); [|reflexivity].
  destruct (negb _); reflexivity.
Qed.

(** A successful query for one vector answers with the rows of its
    nearest matching entries. *)
Lemma query_ok (name : string) (q : list float) (n_results : Z)
    (where_ : option (gmap string string)) (w w' : World)
    (results : QueryResult) :
  Chroma.query distance name [q] n_results where_ w = (Ok results, w') ->
  exists entries,
    store w !! name = Some entries
    /\ format_results results
        = Ok (map (hit_of distance q)
                  (Chroma.nearest distance entries n_results where_ q)).
Proof.
  unfold Chroma.query, m_bind, log. cbn.
  destruct (store w !! name) as [entries|]; [|discriminate].
  destruct (negb _); [discriminate|].
  intros [= <- _]. exists entries. split; [reflexivity|].
  apply format_results_spec.
Qed.

(** [search] never raises: it answers with a list and has made exactly
    two external calls, the query embedding and the store query. The list
    is empty, or it is the formatted top-[max_results] entries that pass
    the [where] clause. *)
Lemma search_spec (self : SATKnowledgeRAG) (query subject_filter : string)
    (max_results : Z) (w : World) :
  exists results : list SearchResult,
    search embed_content distance self query subject_filter max_results w
      = (Ok results,
         logged w [EvEmbed query;
                   EvQuery (collection self) max_results
                           (where_clause subject_filter)])
    /\ (results = []
        \/ exists entries,
             store w !! collection self = Some entries
             /\ results
                = map (hit_of distance (embedding_of embed_content query))
                      (Chroma.nearest distance entries max_results
                         (where_clause subject_filter)
                         (embedding_of embed_content query))).
Proof.
  unfold search, try_except, m_bind at 1.
  rewrite generate_query_embedding_spec. unfold m_bind.
  pose proof (query_world (collection self)
                [embedding_of embed_content query] max_results
                (where_clause subject_filter)
                (logged w [EvEmbed query])) as Hw.
  rewrite logged_logged in Hw. cbn [app] in Hw.
  destruct (Chroma.query distance (collection self)
              [embedding_of embed_content query] max_results
              (where_clause subject_filter) (logged w [EvEmbed query]))
    as [[results|e] w'] eqn:Hq; cbn [snd] in Hw; subst w'.
  - apply query_ok in Hq as (entries & Hstore & Hfmt).
    unfold lift. rewrite Hfmt. eexists. split; [reflexivity|].
    right. exists entries. auto.
  - exists []. split; [reflexivity | now left].
Qed.

(** [get_relevant_context] is a search for three results followed by the
    assembly. *)
Lemma get_relevant_context_spec (self : SATKnowledgeRAG)
    (query subject_filter : string) (max_context_length : Z) (w : World)
    (results : list SearchResult) (w' : World) :
  search embed_content distance self query subject_filter 3 w
    = (Ok results, w') ->
  get_relevant_context embed_content distance self query subject_filter
    max_context_length w
    = (Ok (assemble_context results max_context_length), w').
Proof.
  intros Hs. unfold get_relevant_context, m_bind. now rewrite Hs.
Qed.

Lemma where_clause_subject (subject_filter : string) :
  subject_filter = "math" \/ subject_filter = "english" ->
  where_clause subject_filter = Some {[ "subject" := subject_filter ]}.
Proof. intros [-> | ->]; reflexivity. Qed.

(** ** Index build, construction and rebuild *)

(** The walk of the two subjects: an exception of the math walk ends it
    before the english directory is looked at. *)
Lemma process_subjects_eval (self : SATKnowledgeRAG) (w : World) :
  process_subjects scan_subject self ["math"; "english"] ([], [], []) w
  = match subject_documents scan_subject self "math" with
    | Raise e => (Raise e, logged w [EvScan (knowledge_base_path self) "math"])
    | Ok math =>
        match subject_documents scan_subject self "english" with
        | Raise e =>
            (Raise e, logged w [EvScan (knowledge_base_path self) "math";
                                EvScan (knowledge_base_path self) "english"])
        | Ok english =>
            (Ok (map (fun t => t.1.1) (math ++ english),
                 map (fun t => t.1.2) (math ++ english),
                 map (fun t => t.2) (math ++ english)),
             logged w [EvScan (knowledge_base_path self) "math";
                       EvScan (knowledge_base_path self) "english"])
        end
    end.
Proof.
  unfold subject_documents, logged. cbn [process_subjects].
  unfold m_bind, log, lift, m_ret. cbn [store trace fst snd].
  destruct (scan_subject (knowledge_base_path self) "math") as [[math|e]|];
    cbn [store trace fst snd app]; [|reflexivity|].
  - destruct (scan_subject (knowledge_base_path self) "english")
      as [[english|e]|]; cbn [store trace fst snd app];
      rewrite <- ?app_assoc, ?map_app, ?app_nil_r; reflexivity.
  - destruct (scan_subject (knowledge_base_path self) "english")
      as [[english|e]|]; cbn [store trace fst snd app];
      rewrite <- ?app_assoc, ?app_nil_r; reflexivity.
Qed.

Lemma zip_entries_map (ts : list (string * gmap string string * string)) :
  Chroma.zip_entries (map (fun t => t.2) ts)
    (map (embedding_of embed_content) (map (fun t => t.1.1) ts))
    (map (fun t => t.1.1) ts) (map (fun t => t.1.2) ts)
  = map (entry_of embed_content) ts.
Proof. induction ts as [|t ts IH]; cbn; [reflexivity | now rewrite IH]. Qed.

(** What the build evaluates to. *)
Lemma build_eval (self : SATKnowledgeRAG) (w : World) :
  _build_knowledge_index embed_content scan_subject self w
  = match scanned scan_subject self with
    | Raise e => (Raise e, logged w (scans scan_subject self))
    | Ok [] => (Ok tt, logged w [EvScan (knowledge_base_path self) "math";
                                 EvScan (knowledge_base_path self) "english"])
    | Ok (t :: ts) =>
        Chroma.add (collection self)
          (map (fun t => t.1.1) (t :: ts))
          (map (fun t => t.1.2) (t :: ts))
          (map (embedding_of embed_content) (map (fun t => t.1.1) (t :: ts)))
          (map (fun t => t.2) (t :: ts))
          (logged w ([EvScan (knowledge_base_path self) "math";
                      EvScan (knowledge_base_path self) "english"]
                     ++ map EvEmbed (map (fun t => t.1.1) (t :: ts))))
    end.
Proof.
  unfold _build_knowledge_index, m_bind at 1.
  rewrite process_subjects_eval. unfold scanned, scans.
  destruct (subject_documents scan_subject self "math") as [math|e];
    [|reflexivity].
  destruct (subject_documents scan_subject self "english") as [english|e];
    [|reflexivity].
  cbn [obind fst snd]. destruct (math ++ english) as [|t ts]; [reflexivity|].
  cbn [map]. unfold m_bind.
  rewrite generate_embeddings_spec, logged_logged. reflexivity.
Qed.

(** The bulk insert the build performs. *)
Lemma add_of_triples (name : string)
    (ts : list (string * gmap string string * string)) (w : World) :
  Chroma.add name (map (fun t => t.1.1) ts) (map (fun t => t.1.2) ts)
    (map (embedding_of embed_content) (map (fun t => t.1.1) ts))
    (map (fun t => t.2) ts) w
  = match store w !! name with
    | None => (Raise (NotFoundError name), logged w [EvAdd name (length ts)])
    | Some entries =>
        if forallb (Chroma.fits
                      (Chroma.dimension entries
                         (map (embedding_of embed_content)
                              (map (fun t => t.1.1) ts))))
                   (map (embedding_of embed_content) (map (fun t => t.1.1) ts))
        then (Ok tt,
              mkWorld (<[name := entries ++ map (entry_of embed_content) ts]>
                         (store w))
                      (trace w ++ [EvAdd name (length ts)]))
        else (Raise InvalidDimensionException,
              logged w [EvAdd name (length ts)])
    end.
Proof.
  unfold Chroma.add, m_bind, log. cbn [store trace].
  rewrite !length_map.
  destruct (store w !! name) as [entries|]; [|reflexivity].
  rewrite !Nat.eqb_refl. cbn [andb negb].
  rewrite zip_entries_map.
  destruct (forallb _ _); reflexivity.
Qed.

(** The build begins with the scan of the math directory; it goes on to the
    english directory unless the walk of the math directory raises, which
    ends the build with that exception. *)
Lemma build_scans (self : SATKnowledgeRAG) (w : World) :
  (exists more,
     trace (_build_knowledge_index embed_content scan_subject self w).2
       = trace w ++ [EvScan (knowledge_base_path self) "math"] ++ more)
  /\ (forall e,
        scan_subject (knowledge_base_path self) "math" = Some (Raise e) ->
        _build_knowledge_index embed_content scan_subject self w
          = (Raise e, logged w [EvScan (knowledge_base_path self) "math"]))
  /\ ((forall e,
         scan_subject (knowledge_base_path self) "math" <> Some (Raise e)) ->
      exists more,
        trace (_build_knowledge_index embed_content scan_subject self w).2
          = trace w ++ [EvScan (knowledge_base_path self) "math";
                        EvScan (knowledge_base_path self) "english"] ++ more).
Proof.
  assert (Hgo : forall math,
            subject_documents scan_subject self "math" = Ok math ->
            exists more,
              trace (_build_knowledge_index embed_content scan_subject self w).2
                = trace w ++ [EvScan (knowledge_base_path self) "math";
                              EvScan (knowledge_base_path self) "english"]
                          ++ more).
  { intros math Hm. rewrite build_eval. unfold scanned, scans. rewrite Hm.
    cbn [obind].
    destruct (subject_documents scan_subject self "english") as [english|e];
      cbn [obind]; [|exists []; reflexivity].
    destruct (math ++ english) as [|t ts]; [exists []; reflexivity|].
    rewrite add_of_triples. cbn [logged store trace].
    destruct (store w !! collection self) as [entries|];
      [destruct (forallb _ _)|]; cbn [snd logged store trace];
      eexists; rewrite <- !app_assoc; reflexivity. }
  split; [|split].
  - destruct (subject_documents scan_subject self "math") as [math|e] eqn:Hm.
    + destruct (Hgo math eq_refl) as [more ->]. eexists. reflexivity.
    + rewrite build_eval. unfold scanned, scans. rewrite Hm.
      exists []. reflexivity.
  - intros e He. rewrite build_eval. unfold scanned, scans, subject_documents.
    rewrite He. reflexivity.
  - intros Hok. unfold subject_documents in Hgo.
    destruct (scan_subject (knowledge_base_path self) "math")
      as [[math|e]|] eqn:Hm.
    + exact (Hgo math eq_refl).
    + now destruct (Hok e).
    + exact (Hgo [] eq_refl).
Qed.

(** Construction against an existing collection: the handle is taken and
    the world is left exactly as it was. *)
Lemma init_existing (kb name : string) (w : World) :
  is_Some (store w !! name) ->
  __init__ embed_content scan_subject kb name w = (Ok (mkRAG kb name name), w).
Proof.
  intros [entries He].
  unfold __init__, try_except, m_bind, Chroma.get_collection.
  now rewrite He.
Qed.

(** Construction without the collection: it is created empty and the
    build runs on it. *)
Lemma init_missing (kb name : string) (w : World) :
  store w !! name = None ->
  __init__ embed_content scan_subject kb name w
    = (let! _ := _build_knowledge_index embed_content scan_subject
                   (mkRAG kb name name) in
       m_ret (mkRAG kb name name)) (cleared name w).
Proof.
  intros Hn.
  unfold __init__, try_except, m_bind at 1, Chroma.get_collection.
  rewrite Hn. unfold m_bind at 1, Chroma.create_collection. now rewrite Hn.
Qed.

(** A rebuild clears the collection, whether or not it existed, and then
    runs the build. *)
Lemma rebuild_index_spec (self : SATKnowledgeRAG) (w : World) :
  rebuild_index embed_content scan_subject self w
    = (let! _ := _build_knowledge_index embed_content scan_subject
                   (mkRAG (knowledge_base_path self) (collection_name self)
                          (collection_name self)) in
       m_ret (mkRAG (knowledge_base_path self) (collection_name self)
                    (collection_name self)))
        (cleared (collection_name self) w).
Proof.
  unfold rebuild_index, m_bind at 1, try_except, Chroma.delete_collection.
  destruct (store w !! collection_name self) as [entries|] eqn:He.
  - unfold m_bind at 1, Chroma.create_collection. cbn [store trace].
    rewrite lookup_delete_eq. unfold cleared.
    now rewrite insert_delete_eq.
  - unfold m_ret at 1, m_bind at 1, Chroma.create_collection.
    now rewrite He.
Qed.

(** ** Properties of the embedding step and of failures *)

(** C5. For every list of texts, [_generate_embeddings] returns normally
    with exactly one vector per text, having called the provider once per
    text. A text whose call raises gets the all-zero vector of 768
    components, a text whose call answers gets the provider's vector, and
    when the provider's vectors have 768 components every returned vector
    has 768 components. One failing text therefore aborts nothing. *)
Theorem generate_embeddings_total (self : SATKnowledgeRAG)
    (texts : list string) (w : World) :
  exists embeddings : list (list float),
    _generate_embeddings embed_content self texts w
      = (Ok embeddings, logged w (map EvEmbed texts))
    /\ length embeddings = length texts
    /\ (forall i text e,
          texts !! i = Some text -> embed_content text = Raise e ->
          embeddings !! i = Some ZERO_VECTOR)
    /\ (forall i text v vs,
          texts !! i = Some text -> embed_content text = Ok (v :: vs) ->
          embeddings !! i = Some v)
    /\ length ZERO_VECTOR = 768%nat
    /\ Forall (fun x => x = 0%float) ZERO_VECTOR
    /\ ((forall text v vs,
           embed_content text = Ok (v :: vs) -> length v = 768%nat) ->
        Forall (fun v => length v = 768%nat) embeddings).
Proof.
  exists (map (embedding_of embed_content) texts).
  split; [apply generate_embeddings_spec|].
  split; [apply length_map|].
  change (map (embedding_of embed_content) texts)
    with (embedding_of embed_content <$> texts).
  split; [|split; [|split; [|split]]].
  - intros i text e Hi He. rewrite list_lookup_fmap, Hi. cbn.
    unfold embedding_of. now rewrite He.
  - intros i text v vs Hi Hv. rewrite list_lookup_fmap, Hi. cbn.
    unfold embedding_of. now rewrite Hv.
  - apply ZERO_VECTOR_length.
  - apply ZERO_VECTOR_zero.
  - intros Hdim. apply Forall_fmap, Forall_forall. intros text _.
    unfold compose, embedding_of.
    destruct (embed_content text) as [[|v vs]|e] eqn:He;
      eauto using ZERO_VECTOR_length.
Qed.

(** C6 (amended). Provider failures are never fatal: the embedding step
    and the query embedding always return normally. A failure of the bulk
    insert is fatal to the index build: the build raises the same
    exception. A failure of the store query is not surfaced by [search]:
    it returns normally, with the empty list. *)
Theorem failure_propagation (self : SATKnowledgeRAG) :
  (forall texts w, exists embeddings w',
      _generate_embeddings embed_content self texts w = (Ok embeddings, w'))
  /\ (forall query w, exists v w',
        _generate_query_embedding embed_content self query w = (Ok v, w'))
  /\ (forall w collected w1 embeddings w2 e w3,
        process_subjects scan_subject self ["math"; "english"] ([], [], []) w
          = (Ok collected, w1) ->
        collected.1.1 <> [] ->
        _generate_embeddings embed_content self collected.1.1 w1
          = (Ok embeddings, w2) ->
        Chroma.add (collection self) collected.1.1 collected.1.2 embeddings
          collected.2 w2 = (Raise e, w3) ->
        _build_knowledge_index embed_content scan_subject self w
          = (Raise e, w3))
  /\ (forall query subject_filter max_results w, exists results w',
        search embed_content distance self query subject_filter max_results w
          = (Ok results, w'))
  /\ (forall query subject_filter max_results w v w1 e w2,
        _generate_query_embedding embed_content self query w = (Ok v, w1) ->
        Chroma.query distance (collection self) [v] max_results
          (where_clause subject_filter) w1 = (Raise e, w2) ->
        search embed_content distance self query subject_filter max_results w
          = (Ok [], w2)).
Proof.
  split; [|split; [|split; [|split]]].
  - intros texts w. rewrite generate_embeddings_spec. eauto.
  - intros query w. rewrite generate_query_embedding_spec. eauto.
  - intros w collected w1 embeddings w2 e w3 Hscan Hdocs Hemb Hadd.
    unfold _build_knowledge_index, m_bind at 1. rewrite Hscan.
    destruct (collected.1.1) as [|d ds] eqn:Hd; [congruence|].
    unfold m_bind at 1. now rewrite Hemb, Hadd.
  - intros query subject_filter max_results w.
    destruct (search_spec self query subject_filter max_results w)
      as (results & Hs & _). eauto.
  - intros query subject_filter max_results w v w1 e w2 Hemb Hq.
    unfold search, try_except, m_bind at 1. rewrite Hemb.
    unfold m_bind. now rewrite Hq.
Qed.

(** C8. When the collection exists at construction the build is skipped:
    the whole world (stored entries and history of external calls) is
    left as it was, so nothing is scanned, embedded or added. Hence
    construction touches the world only when the collection was missing,
    and then it runs the build on the freshly created empty collection,
    starting with the scan of the math directory; the english directory is
    scanned next unless the walk of the math directory raises, in which
    case construction raises that exception with nothing else done. A
    rebuild clears the collection first and runs the same build. *)
Theorem build_only_without_collection (kb name : string) (w : World) :
  (is_Some (store w !! name) ->
     __init__ embed_content scan_subject kb name w
       = (Ok (mkRAG kb name name), w))
  /\ ((__init__ embed_content scan_subject kb name w).2 <> w ->
      store w !! name = None)
  /\ (store w !! name = None ->
      __init__ embed_content scan_subject kb name w
        = (let! _ := _build_knowledge_index embed_content scan_subject
                       (mkRAG kb name name) in
           m_ret (mkRAG kb name name)) (cleared name w)
      /\ (exists more,
            trace (__init__ embed_content scan_subject kb name w).2
              = trace w ++ [EvScan kb "math"] ++ more)
      /\ (forall e,
            scan_subject kb "math" = Some (Raise e) ->
            __init__ embed_content scan_subject kb name w
              = (Raise e, logged (cleared name w) [EvScan kb "math"]))
      /\ ((forall e, scan_subject kb "math" <> Some (Raise e)) ->
          exists more,
            trace (__init__ embed_content scan_subject kb name w).2
              = trace w ++ [EvScan kb "math"; EvScan kb "english"] ++ more))
  /\ (forall self,
        knowledge_base_path self = kb -> collection_name self = name ->
        rebuild_index embed_content scan_subject self w
          = (let! _ := _build_knowledge_index embed_content scan_subject
                         (mkRAG kb name name) in
             m_ret (mkRAG kb name name)) (cleared name w)).
Proof.
  split; [|split; [|split]].
  - apply init_existing.
  - intros Hchanged. destruct (store w !! name) as [entries|] eqn:He; [|done].
    rewrite init_existing in Hchanged by (rewrite He; eauto). done.
  - intros Hn. split; [now apply init_missing|].
    rewrite init_missing by done. unfold m_bind.
    destruct (build_scans (mkRAG kb name name) (cleared name w))
      as (Hfirst & Hraise & Hboth).
    cbn [knowledge_base_path] in Hfirst, Hraise, Hboth.
    split; [|split].
    + destruct Hfirst as [more Hm]. exists more.
      destruct (_build_knowledge_index embed_content scan_subject
                  (mkRAG kb name name) (cleared name w)) as [[[]|e] w'];
        exact Hm.
    + intros e He. now rewrite (Hraise e He).
    + intros Hok. destruct (Hboth Hok) as [more Hm]. exists more.
      destruct (_build_knowledge_index embed_content scan_subject
                  (mkRAG kb name name) (cleared name w)) as [[[]|e] w'];
        exact Hm.
  - intros self <- <-. apply rebuild_index_spec.
Qed.

(** ** Properties of search and of the assembled context *)

(** C2. With ["math"] or ["english"] as subject filter, [search] queries
    the store with the equality clause on the key ["subject"], and every
    result it returns carries that subject, both in its metadata and in
    its [subject] field, for every query and every [max_results]. With
    ["all"] the store is queried without a clause. *)
Theorem search_respects_subject_filter (self : SATKnowledgeRAG)
    (query subject_filter : string) (max_results : Z) (w : World) :
  (subject_filter = "math" \/ subject_filter = "english" ->
     exists results,
       search embed_content distance self query subject_filter max_results w
         = (Ok results,
            logged w [EvEmbed query;
                      EvQuery (collection self) max_results
                              (Some {[ "subject" := subject_filter ]})])
       /\ Forall (fun r => metadata r !! "subject" = Some subject_filter
                           /\ subject r = subject_filter) results)
  /\ (exists results,
        search embed_content distance self query "all" max_results w
          = (Ok results,
             logged w [EvEmbed query;
                       EvQuery (collection self) max_results None])).
Proof.
  split.
  - intros Hf.
    destruct (search_spec self query subject_filter max_results w)
      as (results & Hs & Hr).
    rewrite (where_clause_subject _ Hf) in Hs, Hr.
    exists results. split; [exact Hs|].
    destruct Hr as [-> | (entries & _ & ->)]; [constructor|].
    apply Forall_forall. intros r Hr.
    change (map ?f ?l) with (f <$> l) in Hr.
    apply list_elem_of_fmap in Hr as (e & -> & He).
    apply nearest_matches in He as [_ Hm]. cbn in Hm.
    apply map_Forall_singleton in Hm.
    unfold hit_of. cbn [metadata subject]. now rewrite Hm.
  - destruct (search_spec self query "all" max_results w)
      as (results & Hs & _).
    exists results. exact Hs.
Qed.

(** C9. Whatever [max_context_length] is, [get_relevant_context] runs one
    search that asks the store for exactly 3 results; the search returns
    at most 3 results and the assembled context is built from at most 3
    source blocks. *)
Theorem context_requests_three_results (self : SATKnowledgeRAG)
    (query subject_filter : string) (max_context_length : Z) (w : World) :
  exists results : list SearchResult,
    search embed_content distance self query subject_filter 3 w
      = (Ok results,
         logged w [EvEmbed query;
                   EvQuery (collection self) 3 (where_clause subject_filter)])
    /\ get_relevant_context embed_content distance self query subject_filter
         max_context_length w
       = (Ok (assemble_context results max_context_length),
          logged w [EvEmbed query;
                    EvQuery (collection self) 3 (where_clause subject_filter)])
    /\ (length results <= 3)%nat
    /\ (length (assemble_loop max_context_length results [] 0).1 <= 3)%nat.
Proof.
  destruct (search_spec self query subject_filter 3 w) as (results & Hs & Hr).
  exists results. split; [exact Hs|].
  split; [now apply get_relevant_context_spec|].
  assert (Hlen : (length results <= 3)%nat).
  { destruct Hr as [-> | (entries & _ & ->)]; [cbn; lia|].
    rewrite length_map.
    apply (nearest_length entries 3 (where_clause subject_filter)). }
  split; [exact Hlen|].
  pose proof (assemble_loop_length max_context_length results [] 0) as Hb.
  cbn [length] in Hb. lia.
Qed.

(** C3 (amended). When the search yields no result, the context is the
    fixed sentence below, for every query, subject filter and maximum
    length. *)
Theorem empty_search_gives_sentinel (self : SATKnowledgeRAG)
    (query subject_filter : string) (max_context_length : Z) (w w' : World) :
  search embed_content distance self query subject_filter 3 w = (Ok [], w') ->
  get_relevant_context embed_content distance self query subject_filter
    max_context_length w
    = (Ok "No relevant information found in the knowledge base.", w').
Proof.
  intros Hs.
  now rewrite (get_relevant_context_spec _ _ _ max_context_length _ _ _ Hs).
Qed.

(** C10. When the search yields results but each of them fails the budget
    check (its available length, computed with nothing emitted yet, is at
    most 100), the context is the empty string, which is not the
    no-information sentence. *)
Theorem excluded_results_give_empty_string (self : SATKnowledgeRAG)
    (query subject_filter : string) (max_context_length : Z) (w w' : World)
    (results : list SearchResult) :
  search embed_content distance self query subject_filter 3 w
    = (Ok results, w') ->
  results <> [] ->
  Forall (fun r => available_length max_context_length 0 r <= 100) results ->
  get_relevant_context embed_content distance self query subject_filter
    max_context_length w = (Ok EmptyString, w')
  /\ EmptyString <> NO_RELEVANT_INFORMATION.
Proof.
  intros Hs Hne Hall.
  rewrite (get_relevant_context_spec _ _ _ max_context_length _ _ _ Hs).
  split; [|discriminate].
  destruct results as [|r rest]; [congruence|].
  unfold assemble_context.
  now rewrite (assemble_loop_all_skipped max_context_length (r :: rest) [] 0 Hall).
Qed.

End Properties.

(** ** Properties of the assembly loop *)

Lemma string_app_assoc (a b c : string) : (a +:+ b) +:+ c = a +:+ b +:+ c.
Proof.
  induction a as [|x a IH]; [reflexivity|].
  change (String x ((a +:+ b) +:+ c) = String x (a +:+ b +:+ c)).
  now rewrite IH.
Qed.

Lemma take_is_prefix (n : nat) (s : string) :
  exists dropped, s = Py.take n s +:+ dropped.
Proof.
  revert s. induction n as [|n IH]; intros s.
  - exists s. reflexivity.
  - destruct s as [|c s]; [exists EmptyString; reflexivity|].
    destruct (IH s) as [dropped Hd]. exists dropped.
    change (String c s = String c (Py.take n s +:+ dropped)). now rewrite <- Hd.
Qed.

(** C1 (amended). For a positive maximum and a non-empty result list the
    assembled context is never longer than the maximum; the running length
    kept by the loop ends at most 3 (the truncation marker) above it; and
    once the running length has reached the maximum no further block is
    emitted. For the empty result list the context is the 52-character
    no-information sentence, whatever the maximum. *)
Theorem context_length_bounded (results : list SearchResult)
    (max_context_length : Z) :
  0 < max_context_length ->
  (results <> [] ->
     Py.len (assemble_context results max_context_length) <= max_context_length)
  /\ (results = [] ->
       Py.len (assemble_context results max_context_length) = 52)
  /\ (assemble_loop max_context_length results [] 0).2 <= max_context_length + 3
  /\ (forall rest parts current_length,
        max_context_length <= current_length ->
        assemble_loop max_context_length rest parts current_length
          = (parts, current_length)).
Proof.
  intros Hpos.
  destruct (assemble_loop_invariant max_context_length results [] 0)
    as [Hrun Hmax]; [reflexivity | lia |].
  split; [|split; [|split]].
  - intros Hne. destruct results as [|r rest]; [congruence|].
    unfold assemble_context.
    destruct (len_join_le (assemble_loop max_context_length (r :: rest) [] 0).1)
      as [_ Hjoin].
    destruct ((assemble_loop max_context_length (r :: rest) [] 0).1)
      as [|p parts] eqn:Hparts.
    + change (0 <= max_context_length). lia.
    + specialize (Hjoin ltac:(congruence)). lia.
  - intros ->. reflexivity.
  - exact Hmax.
  - intros rest parts current_length. apply assemble_loop_exhausted.
Qed.

(** C4 (amended). A result whose available length is at most 100 is skipped:
    it adds no block and leaves the running length unchanged. The loop does
    not stop there: unless the running length has already reached the
    maximum, it goes on with the results that follow. *)
Theorem small_budget_skips_result (max_context_length : Z)
    (parts : list string) (current_length : Z) (result : SearchResult)
    (rest : list SearchResult) :
  available_length max_context_length current_length result <= 100 ->
  loop_body max_context_length parts current_length result
    = (parts, current_length)
  /\ assemble_loop max_context_length (result :: rest) parts current_length
     = if current_length >=? max_context_length
       then (parts, current_length)
       else assemble_loop max_context_length rest parts current_length.
Proof.
  intros Hle. split; [now apply loop_body_skip|].
  cbn [assemble_loop]. now rewrite loop_body_skip.
Qed.

(** C7 (amended). For a result that passes the budget check (available
    length above 100): when its content is longer than the available length
    the emitted block carries exactly the first [available] characters of
    the content followed by the marker ["..."], so the block ends with the
    marker; when its content fits, the block carries the content as it is. *)
Theorem truncation_boundary (max_context_length : Z) (parts : list string)
    (current_length : Z) (result : SearchResult) :
  100 < available_length max_context_length current_length result ->
  (Py.len (content result)
     > available_length max_context_length current_length result ->
   exists kept dropped,
     content result = kept +:+ dropped
     /\ Py.len kept = available_length max_context_length current_length result
     /\ (loop_body max_context_length parts current_length result).1
        = parts ++ [source_info result +:+ Py.NL +:+ kept +:+ "..."]
     /\ Py.endswith (source_info result +:+ Py.NL +:+ kept +:+ "...") "..."
        = true)
  /\ (Py.len (content result)
        <= available_length max_context_length current_length result ->
      (loop_body max_context_length parts current_length result).1
        = parts ++ [source_info result +:+ Py.NL +:+ content result]).
Proof.
  intros Hinc. unfold loop_body, fit_content.
  destruct (Z.gtb_spec (available_length max_context_length current_length result) 100)
    as [_|?]; [|lia].
  split.
  - intros Hlong.
    destruct (Z.gtb_spec (Py.len (content result))
                (available_length max_context_length current_length result))
      as [_|?]; [|lia].
    exists (Py.slice_to (content result)
              (available_length max_context_length current_length result)).
    destruct (take_is_prefix
                (Z.to_nat (available_length max_context_length current_length result))
                (content result)) as [dropped Hd].
    exists dropped. split.
    { unfold Py.slice_to.
      destruct (Z.leb_spec 0 (available_length max_context_length current_length result));
        [exact Hd | lia]. }
    split; [apply len_slice_to; lia|].
    split; [reflexivity|].
    rewrite <- !string_app_assoc. apply endswith_app.
  - intros Hfits.
    destruct (Z.gtb_spec (Py.len (content result))
                (available_length max_context_length current_length result))
      as [?|_]; [lia | reflexivity].
Qed.

(** ** Concrete runs *)

Import Samples.

Lemma context_length_bounded_witness :
  0 < 300 /\ Py.len (assemble_context [short] 300) <= 300.
Proof.
  split; [lia|].
  exact (proj1 (context_length_bounded [short] 300 eq_refl)
                ltac:(discriminate)).
Defined.

(** With no result and a maximum of 1 the context has 52 characters. *)
Lemma sentinel_exceeds_small_maximum :
  ~ (Py.len (assemble_context [] 1) <= 1 + 3).
Proof. change (~ (52 <= 4)). lia. Qed.

Lemma empty_search_gives_sentinel_witness :
  (search provider l2 rag "algebra" "all" 3 fresh).1 = Ok []
  /\ (get_relevant_context provider l2 rag "algebra" "all" 500 fresh).1
     = Ok "No relevant information found in the knowledge base.".
Proof.
  split; [vm_compute; reflexivity|].
  rewrite (empty_search_gives_sentinel provider l2 rag "algebra" "all" 500 fresh
             (search provider l2 rag "algebra" "all" 3 fresh).2);
    [reflexivity | vm_compute; reflexivity].
Defined.

(** The sentence returned for an empty search is not the shorter,
    lower-case one. *)
Lemma sentinel_is_another_string :
  (get_relevant_context provider l2 rag "algebra" "all" 500 fresh).1
    <> Ok "no relevant information found".
Proof. vm_compute. discriminate. Qed.

Lemma small_budget_skips_result_witness :
  available_length 300 0 long_header <= 100
  /\ assemble_loop 300 [long_header; short] [] 0
     = assemble_loop 300 [short] [] 0.
Proof.
  assert (H : available_length 300 0 long_header <= 100)
    by (vm_compute; discriminate).
  split; [exact H|].
  exact (proj2 (small_budget_skips_result 300 [] 0 long_header [short] H)).
Defined.

(** The first result is skipped for lack of room, the second one is
    emitted all the same. *)
Lemma later_result_is_included :
  ~ (available_length 300 0 long_header <= 100 ->
     (assemble_loop 300 [long_header; short] [] 0).1 = []).
Proof.
  intros H. specialize (H ltac:(vm_compute; discriminate)).
  vm_compute in H. discriminate.
Qed.

Lemma truncation_boundary_witness :
  100 < available_length 300 0 short
  /\ (loop_body 300 [] 0 short).1
     = [source_info short +:+ Py.NL +:+ content short].
Proof.
  assert (H : 100 < available_length 300 0 short) by (vm_compute; reflexivity).
  split; [exact H|].
  apply (proj2 (truncation_boundary 300 [] 0 short H)).
  vm_compute. discriminate.
Defined.

(** With a maximum of 100 the content of [short] fits the available length
    (55) and yet no block is emitted; with a maximum of 50 it exceeds the
    available length (5) and no truncated block is emitted either. *)
Lemma fitting_result_can_be_left_out :
  ~ (Py.len (content short) <= available_length 100 0 short ->
     (loop_body 100 [] 0 short).1
       = [source_info short +:+ Py.NL +:+ content short])
  /\ ~ (Py.len (content short) > available_length 50 0 short ->
        exists block, (loop_body 50 [] 0 short).1 = [block]
                      /\ Py.endswith block "..." = true).
Proof.
  split.
  - intros H. specialize (H ltac:(vm_compute; discriminate)).
    vm_compute in H. discriminate.
  - intros H. destruct (H ltac:(vm_compute; reflexivity)) as (block & Hb & _).
    vm_compute in Hb. discriminate.
Qed.

Lemma search_respects_subject_filter_witness :
  exists results,
    (search provider l2 rag "algebra" "math" 5 indexed).1 = Ok results
    /\ Forall (fun r => subject r = "math") results.
Proof.
  destruct (proj1 (search_respects_subject_filter provider l2 rag
                     "algebra" "math" 5 indexed) (or_introl eq_refl))
    as (results & Hs & Hall).
  exists results. split; [now rewrite Hs|].
  eapply Forall_impl; [exact Hall | now intros r [_ Hr]].
Defined.

Lemma generate_embeddings_total_witness :
  exists embeddings,
    (_generate_embeddings provider rag ["linear equations"; "unreadable"] fresh).1
      = Ok embeddings
    /\ embeddings !! 1%nat = Some ZERO_VECTOR
    /\ Forall (fun v => length v = 768%nat) embeddings.
Proof.
  destruct (generate_embeddings_total provider rag
              ["linear equations"; "unreadable"] fresh)
    as (embeddings & Hrun & _ & Hfail & _ & _ & _ & Hdim).
  exists embeddings. split; [now rewrite Hrun|]. split.
  - apply (Hfail 1%nat "unreadable" (ProviderError "quota exceeded"));
      reflexivity.
  - apply Hdim. intros text v vs. unfold provider.
    destruct (String.eqb text "unreadable"); [discriminate|].
    intros [= <- _]. vm_compute. reflexivity.
Defined.

(** With a provider of another dimensionality than the zero vector the
    bulk insert is refused and the build fails with it; a search against a
    missing collection returns the empty list. *)
Lemma failure_propagation_witness :
  (_build_knowledge_index small_provider knowledge_base rag
     (cleared "sat_knowledge" fresh)).1
    = Raise InvalidDimensionException
  /\ (search provider l2 rag "algebra" "all" 5 fresh).1 = Ok [].
Proof.
  destruct (failure_propagation small_provider knowledge_base l2 rag)
    as (_ & _ & Hbuild & _ & _).
  destruct (failure_propagation provider knowledge_base l2 rag)
    as (_ & _ & _ & _ & Hsearch).
  split.
  - erewrite Hbuild; [reflexivity | vm_compute; reflexivity | vm_compute; discriminate
                     | vm_compute; reflexivity | vm_compute; reflexivity].
  - erewrite Hsearch; [reflexivity | vm_compute; reflexivity | vm_compute; reflexivity].
Defined.

(** The store query fails (the collection is missing) and [search] returns
    the empty list as if nothing had matched. *)
Lemma search_swallows_query_error :
  (Chroma.query l2 "sat_knowledge" [embedding_of provider "algebra"] 5 None
     (logged fresh [EvEmbed "algebra"])).1
    = Raise (NotFoundError "sat_knowledge")
  /\ (search provider l2 rag "algebra" "all" 5 fresh).1 = Ok [].
Proof. split; vm_compute; reflexivity. Qed.

Lemma build_only_without_collection_witness :
  is_Some (store indexed !! "sat_knowledge")
  /\ __init__ small_provider knowledge_base "kb" "sat_knowledge" indexed
     = (Ok rag, indexed).
Proof.
  assert (H : is_Some (store indexed !! "sat_knowledge"))
    by (vm_compute; eauto).
  split; [exact H|].
  exact (proj1 (build_only_without_collection small_provider knowledge_base
                  "kb" "sat_knowledge" indexed) H).
Defined.

Lemma excluded_results_give_empty_string_witness :
  (get_relevant_context provider l2 rag "algebra" "math" 50 indexed).1 = Ok EmptyString.
Proof.
  assert (Hs : search provider l2 rag "algebra" "math" 3 indexed
               = (Ok (match (search provider l2 rag "algebra" "math" 3 indexed).1 with
                      | Ok results => results
                      | Raise _ => []
                      end),
                  (search provider l2 rag "algebra" "math" 3 indexed).2))
    by (vm_compute; reflexivity).
  destruct (excluded_results_give_empty_string provider l2 rag "algebra" "math"
              50 indexed _ _ Hs) as [H _].
  - vm_compute. discriminate.
  - vm_compute. repeat (constructor; [discriminate|]). constructor.
  - now rewrite H.
Defined.

(** * Further properties *)

(** ** Search *)

Section MoreSearch.

Variable embed_content : string -> outcome (list (list float)).
Variable distance : list float -> list float -> float.

(** What a query for one vector evaluates to. *)
Lemma query_eval (name : string) (q : list float) (n_results : Z)
    (where_ : option (gmap string string)) (w : World) :
  Chroma.query distance name [q] n_results where_ w
    = (match store w !! name with
       | Some entries =>
           if Chroma.fits (Chroma.dimension entries []) q
           then Ok {| documents :=
                        [map entry_document
                           (Chroma.nearest distance entries n_results where_ q)];
                      metadatas :=
                        [map entry_metadata
                           (Chroma.nearest distance entries n_results where_ q)];
                      distances :=
                        [map (fun e => distance q (entry_embedding e))
                           (Chroma.nearest distance entries n_results where_ q)] |}
           else Raise InvalidDimensionException
       | None => Raise (NotFoundError name)
       end,
       logged w [EvQuery name n_results where_]).
Proof.
  unfold Chroma.query, m_bind, log. cbn.
  destruct (store w !! name) as [entries|]; [|reflexivity].
  rewrite andb_true_r. destruct (Chroma.fits _ _); reflexivity.
Qed.

(** What [search] evaluates to. *)
Lemma search_eval (self : SATKnowledgeRAG) (query subject_filter : string)
    (max_results : Z) (w : World) :
  search embed_content distance self query subject_filter max_results w
    = (Ok (match store w !! collection self with
           | Some entries =>
               if Chroma.fits (Chroma.dimension entries [])
                    (embedding_of embed_content query)
               then map (hit_of distance (embedding_of embed_content query))
                        (Chroma.nearest distance entries max_results
                           (where_clause subject_filter)
                           (embedding_of embed_content query))
               else []
           | None => []
           end),
       logged w [EvEmbed query;
                 EvQuery (collection self) max_results
                         (where_clause subject_filter)]).
Proof.
  unfold search, try_except, m_bind at 1.
  rewrite generate_query_embedding_spec.
  unfold m_bind. rewrite query_eval, logged_logged. cbn [store logged app].
  destruct (store w !! collection self) as [entries|]; [|reflexivity].
  destruct (Chroma.fits _ _); [|reflexivity].
  unfold lift. now rewrite format_results_spec.
Qed.

(** X1. [search] always returns normally and leaves the store as it is. It
    returns at most [max_results] results, and each of them is the
    formatting of an entry stored in the collection: its document, its
    metadata, one minus its distance to the query vector, and the four
    display fields read from the metadata, with ["Unknown"] for a missing
    key. *)
Theorem search_results_are_stored_entries (self : SATKnowledgeRAG)
    (query subject_filter : string) (max_results : Z) (w : World) :
  exists results w',
    search embed_content distance self query subject_filter max_results w
      = (Ok results, w')
    /\ store w' = store w
    /\ (length results <= Z.to_nat max_results)%nat
    /\ Forall (fun r =>
         exists entries e,
           store w !! collection self = Some entries /\ e ∈ entries
           /\ content r = entry_document e
           /\ metadata r = entry_metadata e
           /\ similarity_score r
              = (1 - distance (embedding_of embed_content query)
                              (entry_embedding e))%float
           /\ title r = default "Unknown" (entry_metadata e !! "title")
           /\ subject r = default "Unknown" (entry_metadata e !! "subject")
           /\ type r = default "Unknown" (entry_metadata e !! "type")
           /\ file_path r = default "Unknown" (entry_metadata e !! "file_path"))
         results.
Proof.
  rewrite search_eval. eexists _, _. split; [reflexivity|].
  split; [reflexivity|].
  destruct (store w !! collection self) as [entries|]; [|split; [cbn; lia | constructor]].
  destruct (Chroma.fits _ _); [|split; [cbn; lia | constructor]].
  split.
  - rewrite length_map. apply nearest_length.
  - apply Forall_forall. intros r Hr.
    change (map ?f ?l) with (f <$> l) in Hr.
    apply list_elem_of_fmap in Hr as (e & -> & He).
    apply nearest_matches in He as [He _].
    exists entries, e. unfold hit_of. cbn. auto 10.
Qed.

(** X2. A subject filter that is neither ["math"] nor ["english"] behaves as
    ["all"]: the same calls, the same results. *)
Theorem search_unknown_filter_is_all (self : SATKnowledgeRAG)
    (query subject_filter : string) (max_results : Z) (w : World) :
  subject_filter <> "math" -> subject_filter <> "english" ->
  search embed_content distance self query subject_filter max_results w
    = search embed_content distance self query "all" max_results w.
Proof.
  intros Hm He.
  assert (Hw : where_clause subject_filter = where_clause "all").
  { unfold where_clause. rewrite bool_decide_eq_false_2; [reflexivity|].
    intros Hin. apply elem_of_cons in Hin as [?|Hin]; [done|].
    apply elem_of_cons in Hin as [?|Hin]; [done|].
    inversion Hin. }
  unfold search. now rewrite Hw.
Qed.

End MoreSearch.

(** X3. A failed query embedding is not reported: [search] behaves exactly as if
    the provider had answered with the zero vector. *)
Theorem search_failed_query_embedding
    (embed_content : string -> outcome (list (list float)))
    (distance : list float -> list float -> float) (self : SATKnowledgeRAG)
    (query subject_filter : string) (max_results : Z) (w : World) (e : exn) :
  embed_content query = Raise e ->
  search embed_content distance self query subject_filter max_results w
    = search (fun _ => Ok [ZERO_VECTOR]) distance self query subject_filter
        max_results w.
Proof.
  intros He. rewrite !search_eval. unfold embedding_of. now rewrite He.
Qed.

(** ** Context assembly *)

Lemma full_length_nonneg (results : list SearchResult) : 0 <= full_length results.
Proof.
  induction results as [|r rest IH]; cbn; [lia|].
  fold (full_length rest).
  pose proof (len_nonneg (source_info r)). pose proof (len_nonneg (content r)). lia.
Qed.

Lemma len_source_info (result : SearchResult) :
  Py.len (source_info result)
    = 13 + Py.len (title result) + Py.len (subject result) + Py.len (type result).
Proof.
  unfold source_info. rewrite !len_app.
  change (Py.len "Source: ") with 8. change (Py.len " (") with 2.
  change (Py.len ", ") with 2. change (Py.len ")") with 1. lia.
Qed.

Lemma assemble_loop_all_fit (max_context_length : Z)
    (results : list SearchResult) :
  forall (parts : list string) (current_length : Z),
    current_length + full_length results + 101 <= max_context_length ->
    assemble_loop max_context_length results parts current_length
      = (parts ++ map whole_block results,
         current_length + full_length results).
Proof.
  induction results as [|r rest IH]; intros parts current_length Hroom.
  - cbn. rewrite app_nil_r. f_equal. lia.
  - cbn [full_length foldr] in Hroom. fold (full_length rest) in Hroom.
    pose proof (full_length_nonneg rest) as Hrest.
    pose proof (len_nonneg (source_info r)) as Hsi.
    pose proof (len_nonneg (content r)) as Hc.
    cbn [assemble_loop]. unfold loop_body, fit_content, available_length.
    destruct (Z.gtb_spec (max_context_length - current_length
                          - Py.len (source_info r) - 10) 100); [|lia].
    destruct (Z.gtb_spec (Py.len (content r))
                (max_context_length - current_length
                 - Py.len (source_info r) - 10)); [lia|].
    destruct (Z.geb_spec (current_length + Py.len (source_info r)
                          + Py.len (content r) + 10) max_context_length); [lia|].
    rewrite IH by lia. cbn [map full_length foldr]. fold (full_length rest).
    rewrite <- app_assoc. cbn [app]. unfold whole_block. f_equal. lia.
Qed.

(** X4. When the maximum leaves room for all results whole (each header, content
    and buffer of 10) and 101 characters more, every result is emitted,
    unmodified and in rank order, joined by the separator. *)
Theorem roomy_context_keeps_everything (results : list SearchResult)
    (max_context_length : Z) :
  results <> [] ->
  full_length results + 101 <= max_context_length ->
  assemble_context results max_context_length
    = Py.join SEPARATOR (map whole_block results).
Proof.
  intros Hne Hroom. destruct results as [|r rest]; [congruence|].
  unfold assemble_context.
  now rewrite (assemble_loop_all_fit max_context_length (r :: rest) [] 0) by lia.
Qed.

(** X5. A truncated block is the last one: once a result that passes the budget
    check has been cut, the running length is the maximum plus 3 and the
    results that follow are not looked at. *)
Theorem truncated_block_is_last (max_context_length : Z) (parts : list string)
    (current_length : Z) (result : SearchResult) (rest : list SearchResult) :
  100 < available_length max_context_length current_length result ->
  Py.len (content result)
    > available_length max_context_length current_length result ->
  assemble_loop max_context_length (result :: rest) parts current_length
    = (parts ++ [source_info result +:+ Py.NL
                 +:+ Py.slice_to (content result)
                       (available_length max_context_length current_length result)
                 +:+ "..."],
       max_context_length + 3).
Proof.
  intros Hinc Hlong. cbn [assemble_loop]. unfold loop_body, fit_content.
  destruct (Z.gtb_spec (available_length max_context_length current_length result) 100);
    [|lia].
  destruct (Z.gtb_spec (Py.len (content result))
              (available_length max_context_length current_length result)); [|lia].
  rewrite len_app, len_slice_to by lia. change (Py.len "...") with 3.
  unfold available_length in *.
  replace (current_length + Py.len (source_info result)
           + (max_context_length - current_length - Py.len (source_info result) - 10 + 3)
           + 10) with (max_context_length + 3) by lia.
  destruct (Z.geb_spec (max_context_length + 3) max_context_length); [reflexivity | lia].
Qed.

(** X6. With a maximum of at most 123 no block is ever emitted: a header alone
    takes at least 13 characters, so no result passes the budget check, and
    the context of a non-empty result list is the empty string. *)
Theorem small_maximum_gives_empty_context (results : list SearchResult)
    (max_context_length : Z) :
  results <> [] -> max_context_length <= 123 ->
  assemble_context results max_context_length = EmptyString.
Proof.
  intros Hne Hsmall. destruct results as [|r rest]; [congruence|].
  unfold assemble_context.
  rewrite assemble_loop_all_skipped; [reflexivity|].
  apply Forall_forall. intros x _. unfold available_length.
  rewrite len_source_info.
  pose proof (len_nonneg (title x)). pose proof (len_nonneg (subject x)).
  pose proof (len_nonneg (type x)). lia.
Qed.

Lemma loop_body_blocks (max_context_length : Z) (parts : list string)
    (current_length : Z) (result : SearchResult) :
  (loop_body max_context_length parts current_length result).1 = parts
  \/ exists block,
       (loop_body max_context_length parts current_length result).1
         = parts ++ [block]
       /\ block_of result block.
Proof.
  unfold loop_body.
  destruct (Z.gtb_spec (available_length max_context_length current_length result) 100)
    as [Hinc|_]; [|now left].
  right. eexists. split; [reflexivity|]. unfold block_of, fit_content.
  eexists. split; [reflexivity|].
  destruct (Z.gtb_spec (Py.len (content result))
              (available_length max_context_length current_length result))
    as [Hlong|_]; [|now left].
  right.
  destruct (take_is_prefix
              (Z.to_nat (available_length max_context_length current_length result))
              (content result)) as [dropped Hd].
  exists (Py.slice_to (content result)
            (available_length max_context_length current_length result)), dropped.
  split; [|reflexivity]. unfold Py.slice_to.
  destruct (Z.leb_spec 0 (available_length max_context_length current_length result));
    [exact Hd | lia].
Qed.

Lemma assemble_loop_blocks (max_context_length : Z)
    (results : list SearchResult) :
  forall (parts : list string) (current_length : Z),
  exists chosen blocks,
    chosen `sublist_of` results
    /\ (assemble_loop max_context_length results parts current_length).1
       = parts ++ blocks
    /\ Forall2 block_of chosen blocks.
Proof.
  induction results as [|r rest IH]; intros parts current_length.
  - exists [], []. cbn. rewrite app_nil_r. repeat split; constructor.
  - cbn [assemble_loop].
    destruct (loop_body_blocks max_context_length parts current_length r)
      as [Hskip | (block & Hb & Hblock)];
      destruct (loop_body max_context_length parts current_length r)
        as [parts' current_length']; cbn [fst] in *; subst parts'.
    + destruct (current_length' >=? max_context_length).
      * exists [], []. cbn. rewrite app_nil_r.
        repeat split; [apply sublist_nil_l | constructor].
      * destruct (IH parts current_length') as (chosen & blocks & Hs & Hp & Hf).
        exists chosen, blocks. split; [now apply sublist_cons|]. auto.
    + destruct (current_length' >=? max_context_length).
      * exists [r], [block]. cbn [fst]. split; [|split; [reflexivity|]].
        -- apply sublist_skip, sublist_nil_l.
        -- repeat constructor. exact Hblock.
      * destruct (IH (parts ++ [block]) current_length')
          as (chosen & blocks & Hs & Hp & Hf).
        exists (r :: chosen), (block :: blocks).
        split; [now apply sublist_skip|].
        split; [rewrite Hp, <- app_assoc; reflexivity|].
        now constructor.
Qed.

(** X7. The blocks of the context follow the ranking: they are the blocks of a
    subsequence of the results, in order, each made of its result's header,
    a newline and its result's content, whole or cut to a prefix and marked. *)
Theorem context_blocks_follow_ranking (results : list SearchResult)
    (max_context_length : Z) :
  exists chosen,
    chosen `sublist_of` results
    /\ Forall2 block_of chosen
         (assemble_loop max_context_length results [] 0).1.
Proof.
  destruct (assemble_loop_blocks max_context_length results [] 0)
    as (chosen & blocks & Hs & Hp & Hf).
  exists chosen. split; [exact Hs|]. now rewrite Hp.
Qed.

Lemma join_starts_with_first (sep p : string) (ps : list string) :
  exists tail, Py.join sep (p :: ps) = p +:+ tail.
Proof.
  destruct ps as [|q ps].
  - exists EmptyString. cbn. induction p as [|c p IH]; [reflexivity|].
    change (String c p = String c (p +:+ EmptyString)). now rewrite <- IH.
  - eexists. reflexivity.
Qed.

(** X8. For a non-empty result list the context is empty or starts with
    ["Source: "], so it is never the no-information sentence. *)
Theorem context_of_results_is_not_sentinel (results : list SearchResult)
    (max_context_length : Z) :
  results <> [] ->
  (assemble_context results max_context_length = EmptyString
   \/ exists rest,
        assemble_context results max_context_length = "Source: " +:+ rest)
  /\ assemble_context results max_context_length <> NO_RELEVANT_INFORMATION.
Proof.
  intros Hne.
  assert (H : assemble_context results max_context_length = EmptyString
              \/ exists rest,
                   assemble_context results max_context_length
                     = "Source: " +:+ rest).
  { destruct results as [|r0 rest0]; [congruence|]. unfold assemble_context.
    destruct (assemble_loop_blocks max_context_length (r0 :: rest0) [] 0)
      as (chosen & blocks & _ & -> & Hf). cbn [app].
    destruct Hf as [|r block chosen' blocks' (shown & -> & _) _]; [now left|].
    right. destruct (join_starts_with_first SEPARATOR
                       (source_info r +:+ Py.NL +:+ shown) blocks') as [tail ->].
    unfold source_info. rewrite !string_app_assoc. eexists. reflexivity. }
  split; [exact H|].
  destruct H as [-> | [rest ->]]; discriminate.
Qed.

(** ** Build, rebuild and construction *)

Section MoreBuild.

Variable embed_content : string -> outcome (list (list float)).
Variable scan_subject :
  string -> string -> option (outcome (list (string * gmap string string * string))).
Variable distance : list float -> list float -> float.

Lemma embedding_of_768 (text : string) :
  (forall text v vs, embed_content text = Ok (v :: vs) -> length v = 768%nat) ->
  length (embedding_of embed_content text) = 768%nat.
Proof.
  intros Hdim. unfold embedding_of.
  destruct (embed_content text) as [[|v vs]|e] eqn:He;
    eauto using ZERO_VECTOR_length.
Qed.

(** The build on an empty collection with a provider of 768-dimensional
    vectors: it stores what the walk collected, and raises what the walk
    raises. *)
Lemma build_on_empty_collection (self : SATKnowledgeRAG) (w : World) :
  (forall text v vs, embed_content text = Ok (v :: vs) -> length v = 768%nat) ->
  store w !! collection self = Some [] ->
  match scanned scan_subject self with
  | Ok ts =>
      (_build_knowledge_index embed_content scan_subject self w).1 = Ok tt
      /\ store (_build_knowledge_index embed_content scan_subject self w).2
           !! collection self
         = Some (map (entry_of embed_content) ts)
  | Raise e =>
      _build_knowledge_index embed_content scan_subject self w
        = (Raise e, logged w (scans scan_subject self))
  end.
Proof.
  intros Hdim Hempty. rewrite build_eval.
  destruct (scanned scan_subject self) as [[|t ts]|e]; [now split| |reflexivity].
  rewrite add_of_triples. cbn [logged store]. rewrite Hempty.
  assert (Hfits : forallb
            (Chroma.fits
               (Chroma.dimension []
                  (map (embedding_of embed_content)
                       (map (fun t => t.1.1) (t :: ts)))))
            (map (embedding_of embed_content) (map (fun t => t.1.1) (t :: ts)))
          = true).
  { apply forallb_forall. intros v Hv. apply in_map_iff in Hv as (text & <- & _).
    cbn. rewrite !embedding_of_768 by exact Hdim. reflexivity. }
  rewrite Hfits. cbn [fst snd store app]. split; [reflexivity|].
  apply lookup_insert_eq.
Qed.

(** X9. With a provider of 768-dimensional vectors, the build on an empty
    collection succeeds exactly when the walk of the knowledge base does
    not raise, whatever texts fail to embed, and the collection then holds
    one entry per collected document, math before english, in the order
    collected, each with its text, its metadata, its id and its vector (the
    zero vector for a failed text). When the walk raises, the build raises
    the same exception and nothing is embedded or stored. *)
Theorem build_indexes_every_document (self : SATKnowledgeRAG) (w : World) :
  (forall text v vs, embed_content text = Ok (v :: vs) -> length v = 768%nat) ->
  store w !! collection self = Some [] ->
  (forall ts,
     scanned scan_subject self = Ok ts ->
     (_build_knowledge_index embed_content scan_subject self w).1 = Ok tt
     /\ store (_build_knowledge_index embed_content scan_subject self w).2
          !! collection self
        = Some (map (entry_of embed_content) ts))
  /\ (forall e,
        scanned scan_subject self = Raise e ->
        _build_knowledge_index embed_content scan_subject self w
          = (Raise e, logged w (scans scan_subject self)))
  /\ ((_build_knowledge_index embed_content scan_subject self w).1 = Ok tt
      <-> exists ts, scanned scan_subject self = Ok ts).
Proof.
  intros Hdim Hempty.
  pose proof (build_on_empty_collection self w Hdim Hempty) as Hb.
  destruct (scanned scan_subject self) as [ts|e].
  - split; [|split].
    + now intros ? [= <-].
    + discriminate.
    + split; [eauto | intros _; apply Hb].
  - split; [|split].
    + discriminate.
    + now intros ? [= <-].
    + rewrite Hb. split; [discriminate | now intros [ts Hts]].
Qed.

(** X10. When two collected texts end up with vectors of different
    dimensionality (a provider that is not 768-dimensional and one failed
    call are enough), the bulk insert is refused: the build fails with the
    store's dimension error and the store is as before. *)
Theorem build_fails_on_mixed_dimensions (self : SATKnowledgeRAG) (w : World)
    (collected : list (string * gmap string string * string))
    (t1 t2 : string * gmap string string * string) :
  is_Some (store w !! collection self) ->
  scanned scan_subject self = Ok collected ->
  t1 ∈ collected -> t2 ∈ collected ->
  length (embedding_of embed_content t1.1.1)
    <> length (embedding_of embed_content t2.1.1) ->
  (_build_knowledge_index embed_content scan_subject self w).1
    = Raise InvalidDimensionException
  /\ store (_build_knowledge_index embed_content scan_subject self w).2
     = store w.
Proof.
  intros [entries He] Hs H1 H2 Hne. rewrite build_eval, Hs.
  destruct collected as [|t ts]; [inversion H1|].
  rewrite add_of_triples. cbn [logged store]. rewrite He.
  destruct (forallb _ _) eqn:Hfits; [|now split].
  exfalso. apply Hne.
  rewrite forallb_forall in Hfits.
  assert (Hd : exists n, Chroma.dimension entries
                 (map (embedding_of embed_content)
                      (map (fun t => t.1.1) (t :: ts))) = Some n).
  { destruct entries; cbn; eauto. }
  destruct Hd as [n Hd]. rewrite Hd in Hfits.
  assert (Hall : forall x, x ∈ t :: ts ->
                   length (embedding_of embed_content x.1.1) = n).
  { intros x Hx. apply Nat.eqb_eq.
    apply (Hfits (embedding_of embed_content x.1.1)).
    apply in_map_iff. exists x.1.1. split; [reflexivity|].
    apply in_map_iff. exists x. split; [reflexivity|].
    now apply list_elem_of_In. }
  now rewrite (Hall t1 H1), (Hall t2 H2).
Qed.

(** X11. When no document is found, the build only looks at the two subject
    directories: nothing is embedded, nothing is added, and it succeeds even
    without a collection. *)
Theorem build_without_documents (self : SATKnowledgeRAG) (w : World) :
  scanned scan_subject self = Ok [] ->
  _build_knowledge_index embed_content scan_subject self w
    = (Ok tt, logged w [EvScan (knowledge_base_path self) "math";
                        EvScan (knowledge_base_path self) "english"]).
Proof. intros Hs. rewrite build_eval. now rewrite Hs. Qed.

(** The build touches no collection but its own, and it never removes a
    collection; when it fails the store is as before. *)
Lemma build_store (self : SATKnowledgeRAG) (w : World) :
  (forall name, name <> collection self ->
     store (_build_knowledge_index embed_content scan_subject self w).2 !! name
       = store w !! name)
  /\ (is_Some (store w !! collection self) ->
      is_Some (store (_build_knowledge_index embed_content scan_subject self w).2
                 !! collection self))
  /\ (forall e,
        (_build_knowledge_index embed_content scan_subject self w).1 = Raise e ->
        store (_build_knowledge_index embed_content scan_subject self w).2
          = store w).
Proof.
  rewrite build_eval.
  destruct (scanned scan_subject self) as [[|t ts]|e0] eqn:Hs.
  { cbn. split; [|split]; [auto | auto | discriminate]. }
  2: { cbn. split; [|split]; auto. }
  rewrite add_of_triples. cbn [logged store].
  destruct (store w !! collection self) as [entries|] eqn:He.
  - destruct (forallb _ _).
    + cbn [fst snd store]. split; [|split].
      * intros name Hn. now rewrite lookup_insert_ne.
      * intros _. rewrite lookup_insert_eq. eauto.
      * discriminate.
    + cbn. rewrite He. split; [|split]; eauto.
  - cbn. rewrite He. split; [|split]; auto.
Qed.

Lemma rebuild_failure (self : SATKnowledgeRAG) (w : World) (e : exn) :
  (rebuild_index embed_content scan_subject self w).1 = Raise e ->
  store (rebuild_index embed_content scan_subject self w).2
    !! collection_name self = Some [].
Proof.
  rewrite rebuild_index_spec. unfold m_bind.
  set (self' := mkRAG (knowledge_base_path self) (collection_name self)
                      (collection_name self)).
  destruct (build_store self' (cleared (collection_name self) w))
    as (_ & _ & Hfail).
  destruct (_build_knowledge_index embed_content scan_subject self'
              (cleared (collection_name self) w)) as [[[]|e'] w'];
    cbn [fst snd] in *; [discriminate|].
  intros _. rewrite (Hfail e' eq_refl). apply lookup_insert_eq.
Qed.

(** X12. A rebuild is not atomic: when it fails, the collection is left present
    and empty, whatever it held before. *)
Theorem failed_rebuild_leaves_empty_collection (self : SATKnowledgeRAG)
    (w : World) (e : exn) :
  (rebuild_index embed_content scan_subject self w).1 = Raise e ->
  store (rebuild_index embed_content scan_subject self w).2
    !! collection_name self = Some [].
Proof. apply rebuild_failure. Qed.

(** X13. With a provider of 768-dimensional vectors a rebuild succeeds
    exactly when the walk of the knowledge base does not raise; afterwards
    the collection holds exactly the documents collected now and nothing of
    what it held before. When the walk raises, the rebuild raises the same
    exception and leaves the collection empty. Either way every other
    collection is untouched. *)
Theorem rebuild_replaces_collection (self : SATKnowledgeRAG) (w : World) :
  (forall text v vs, embed_content text = Ok (v :: vs) -> length v = 768%nat) ->
  (forall ts,
     scanned scan_subject self = Ok ts ->
     (rebuild_index embed_content scan_subject self w).1
       = Ok (mkRAG (knowledge_base_path self) (collection_name self)
                   (collection_name self))
     /\ store (rebuild_index embed_content scan_subject self w).2
          !! collection_name self
        = Some (map (entry_of embed_content) ts))
  /\ (forall e,
        scanned scan_subject self = Raise e ->
        (rebuild_index embed_content scan_subject self w).1 = Raise e
        /\ store (rebuild_index embed_content scan_subject self w).2
             !! collection_name self
           = Some [])
  /\ (forall name, name <> collection_name self ->
        store (rebuild_index embed_content scan_subject self w).2 !! name
          = store w !! name).
Proof.
  intros Hdim. rewrite rebuild_index_spec. unfold m_bind, m_ret.
  set (self' := mkRAG (knowledge_base_path self) (collection_name self)
                      (collection_name self)).
  assert (Hempty : store (cleared (collection_name self) w) !! collection self'
                   = Some []) by apply lookup_insert_eq.
  pose proof (build_on_empty_collection self' _ Hdim Hempty) as Hb.
  change (scanned scan_subject self') with (scanned scan_subject self) in Hb.
  destruct (build_store self' (cleared (collection_name self) w))
    as (Hframe & _ & _).
  split; [|split].
  - intros ts Hts. rewrite Hts in Hb. destruct Hb as [Hok Hstore].
    destruct (_build_knowledge_index embed_content scan_subject self'
                (cleared (collection_name self) w)) as [[[]|e'] w'];
      cbn [fst snd] in *; [|discriminate].
    split; [reflexivity | exact Hstore].
  - intros e He. rewrite He in Hb. rewrite Hb. cbn [fst snd logged store].
    split; [reflexivity | exact Hempty].
  - intros name Hn.
    destruct (_build_knowledge_index embed_content scan_subject self'
                (cleared (collection_name self) w)) as [[[]|e'] w'];
      cbn [fst snd] in *; rewrite (Hframe name Hn); cbn;
      now rewrite lookup_insert_ne.
Qed.

(** After construction the collection exists, whatever happened. *)
Lemma init_leaves_collection (kb name : string) (w : World) :
  is_Some (store (__init__ embed_content scan_subject kb name w).2 !! name).
Proof.
  destruct (store w !! name) as [entries|] eqn:He.
  - rewrite init_existing by (rewrite He; eauto). cbn. rewrite He. eauto.
  - rewrite init_missing by exact He. unfold m_bind.
    destruct (build_store (mkRAG kb name name) (cleared name w))
      as (_ & Hkeep & _).
    specialize (Hkeep ltac:(cbn; rewrite lookup_insert_eq; eauto)).
    destruct (_build_knowledge_index embed_content scan_subject
                (mkRAG kb name name) (cleared name w)) as [[[]|e'] w'];
      exact Hkeep.
Qed.

(** X14. Constructing the system a second time performs no external call and
    succeeds with the world unchanged, whether the first construction
    succeeded or failed. *)
Theorem second_construction_is_silent (kb name : string) (w : World) :
  __init__ embed_content scan_subject kb name
    (__init__ embed_content scan_subject kb name w).2
  = (Ok (mkRAG kb name name),
     (__init__ embed_content scan_subject kb name w).2).
Proof. apply init_existing, init_leaves_collection. Qed.

(** X15. When the first construction fails in its build, it leaves the freshly
    created collection behind, empty; every search on the resulting store
    then returns no result (and, by the previous property, later
    constructions skip the build). *)
Theorem failed_first_build_leaves_empty_index (kb name : string) (w : World)
    (e : exn) :
  store w !! name = None ->
  (__init__ embed_content scan_subject kb name w).1 = Raise e ->
  store (__init__ embed_content scan_subject kb name w).2 !! name = Some []
  /\ forall query subject_filter max_results,
       (search embed_content distance (mkRAG kb name name) query subject_filter
          max_results (__init__ embed_content scan_subject kb name w).2).1
       = Ok [].
Proof.
  intros Hn. rewrite init_missing by exact Hn. unfold m_bind.
  destruct (build_store (mkRAG kb name name) (cleared name w))
    as (_ & _ & Hfail).
  destruct (_build_knowledge_index embed_content scan_subject
              (mkRAG kb name name) (cleared name w)) as [[[]|e'] w'];
    cbn [fst snd] in *; [discriminate|].
  intros _. rewrite (Hfail e' eq_refl).
  assert (Hs : store (cleared name w) !! name = Some [])
    by apply lookup_insert_eq.
  split; [exact Hs|].
  intros query subject_filter max_results.
  rewrite search_eval. cbn [fst collection].
  rewrite (Hfail e' eq_refl), Hs. unfold Chroma.nearest. cbn.
  now rewrite take_nil.
Qed.

End MoreBuild.

(** ** Statistics and callers *)

Section CallerProperties.

Variable embed_content : string -> outcome (list (list float)).
Variable scan_subject :
  string -> string -> option (outcome (list (string * gmap string string * string))).
Variable distance : list float -> list float -> float.
Variable str_exn : exn -> string.

(** The context is never longer than the larger of the maximum and the
    52 characters of the no-information sentence. *)
Lemma len_assemble_context (results : list SearchResult)
    (max_context_length : Z) :
  0 < max_context_length ->
  Py.len (assemble_context results max_context_length)
    <= Z.max max_context_length 52.
Proof.
  intros Hpos. destruct results as [|r rest].
  - change (Py.len (assemble_context [] max_context_length)) with 52. lia.
  - unfold assemble_context.
    destruct (assemble_loop_invariant max_context_length (r :: rest) [] 0)
      as [Hrun Hmax]; [reflexivity | lia |].
    destruct (len_join_le (assemble_loop max_context_length (r :: rest) [] 0).1)
      as [Hle Hjoin].
    destruct ((assemble_loop max_context_length (r :: rest) [] 0).1)
      as [|p parts] eqn:Hparts.
    + change (Py.len (Py.join SEPARATOR [])) with 0. lia.
    + specialize (Hjoin ltac:(congruence)). lia.
Qed.

(** X16. [get_stats] never raises and leaves the world as it is. With the
    collection present the dictionary has [total_documents] equal to the
    number of stored entries and no [error] key; with the collection missing
    it has the [error] key and no [total_documents] key. *)
Theorem get_stats_reports_count (self : SATKnowledgeRAG) (w : World) :
  exists d,
    get_stats str_exn self w = (Ok d, w)
    /\ match store w !! collection self with
       | Some entries =>
           d !! "total_documents" = Some (VInt (Z.of_nat (length entries)))
           /\ d !! "error" = None
       | None =>
           d !! "total_documents" = None
           /\ d !! "error"
              = Some (VStr (str_exn (NotFoundError (collection self))))
       end.
Proof.
  unfold get_stats, try_except, m_bind, collection_count, m_ret.
  destruct (store w !! collection self) as [entries|];
    eexists; (split; [reflexivity|]); split; reflexivity.
Qed.

Lemma get_stats_eval (self : SATKnowledgeRAG) (w : World) :
  exists d,
    get_stats str_exn self w = (Ok d, w)
    /\ forall entries,
         store w !! collection self = Some entries ->
         d !! "total_documents" = Some (VInt (Z.of_nat (length entries))).
Proof.
  unfold get_stats, try_except, m_bind, collection_count, m_ret.
  destruct (store w !! collection self) as [entries|]; eexists;
    (split; [reflexivity|]); intros ? [= <-]. reflexivity.
Qed.

(** X17. A first construction with a provider of 768-dimensional vectors
    succeeds exactly when the walk of the knowledge base does not raise, and
    the statistics then count one document per collected file. When the
    walk raises, construction raises the same exception. *)
Theorem stats_after_first_construction (kb name : string) (w : World) :
  (forall text v vs, embed_content text = Ok (v :: vs) -> length v = 768%nat) ->
  store w !! name = None ->
  (forall ts,
     scanned scan_subject (mkRAG kb name name) = Ok ts ->
     (__init__ embed_content scan_subject kb name w).1 = Ok (mkRAG kb name name)
     /\ exists d,
          (get_stats str_exn (mkRAG kb name name)
             (__init__ embed_content scan_subject kb name w).2).1 = Ok d
          /\ d !! "total_documents" = Some (VInt (Z.of_nat (length ts))))
  /\ (forall e,
        scanned scan_subject (mkRAG kb name name) = Raise e ->
        (__init__ embed_content scan_subject kb name w).1 = Raise e).
Proof.
  intros Hdim Hn. rewrite init_missing by exact Hn. unfold m_bind, m_ret.
  assert (Hempty : store (cleared name w) !! collection (mkRAG kb name name)
                   = Some []) by apply lookup_insert_eq.
  pose proof (build_on_empty_collection embed_content scan_subject
                (mkRAG kb name name) _ Hdim Hempty) as Hb.
  split.
  - intros ts Hts. rewrite Hts in Hb. destruct Hb as [Hok Hstore].
    destruct (_build_knowledge_index embed_content scan_subject
                (mkRAG kb name name) (cleared name w)) as [[[]|e'] w'];
      cbn [fst snd] in *; [|discriminate].
    split; [reflexivity|].
    destruct (get_stats_eval (mkRAG kb name name) w') as (d & -> & Hd).
    exists d. split; [reflexivity|]. specialize (Hd _ Hstore).
    now rewrite length_map in Hd.
  - intros e He. rewrite He in Hb. now rewrite Hb.
Qed.

(** X18. The search tool of the executor never reports an error: its status is
    always ["success"], its [results_count] is the length of its [results],
    which is at most [max_results], and with the collection missing the
    result list is simply empty. *)
Theorem search_tool_always_succeeds (self : Executor) (query subject : string)
    (max_results : Z) (w : World) :
  exists d results w',
    _search_knowledge_rag embed_content distance str_exn self query subject max_results w = (Ok d, w')
    /\ d !! "status" = Some (VStr "success")
    /\ d !! "results" = Some (VResults results)
    /\ d !! "results_count" = Some (VInt (Z.of_nat (length results)))
    /\ (length results <= Z.to_nat max_results)%nat
    /\ (store w !! collection (rag_system self) = None -> results = []).
Proof.
  unfold _search_knowledge_rag, try_except, m_bind, m_ret.
  rewrite search_eval. eexists _, _, _. split; [reflexivity|].
  do 3 (split; [reflexivity|]).
  destruct (store w !! collection (rag_system self)) as [entries|];
    [|split; [cbn; lia | reflexivity]].
  split; [|discriminate].
  destruct (Chroma.fits _ _); [|cbn; lia].
  rewrite length_map. apply nearest_length.
Qed.

(** X19. The context tool of the executor never reports an error either: for a
    positive maximum its status is ["success"], its [context_length] is the
    length of its [context], and that length is at most the larger of the
    maximum and 52. *)
Theorem context_tool_always_succeeds (self : Executor) (query subject : string)
    (max_context_length : Z) (w : World) :
  0 < max_context_length ->
  exists d context w',
    _get_context embed_content distance str_exn self query subject max_context_length w = (Ok d, w')
    /\ d !! "status" = Some (VStr "success")
    /\ d !! "context" = Some (VStr context)
    /\ d !! "context_length" = Some (VInt (Py.len context))
    /\ Py.len context <= Z.max max_context_length 52.
Proof.
  intros Hpos.
  unfold _get_context, try_except, m_bind at 1, get_relevant_context, m_bind.
  rewrite search_eval. unfold m_ret. eexists _, _, _.
  split; [reflexivity|]. do 3 (split; [reflexivity|]).
  now apply len_assemble_context.
Qed.

(** X20. [update_embedding] never raises. It answers [True] only when there is
    a non-empty API key and a system in the session and the rebuild
    succeeded, the world then being the one the rebuild left; when it
    answers [False] either nothing was touched or the rebuild failed and
    left the collection empty. *)
Theorem update_embedding_outcome (API_KEY : option string)
    (session_rag : option SATKnowledgeRAG) (file_path : string) (w : World) :
  exists done w',
    update_embedding embed_content scan_subject API_KEY session_rag file_path w = (Ok done, w')
    /\ (done = true ->
        exists key rag,
          API_KEY = Some key /\ key <> EmptyString
          /\ session_rag = Some rag
          /\ rebuild_index embed_content scan_subject rag w
             = (Ok (mkRAG (knowledge_base_path rag) (collection_name rag)
                          (collection_name rag)), w'))
    /\ (done = false ->
        w' = w
        \/ exists rag, session_rag = Some rag
             /\ store w' !! collection_name rag = Some []).
Proof.
  unfold update_embedding.
  destruct API_KEY as [key|]; [|exists false, w; unfold m_ret; split; [reflexivity|]; split; [discriminate | auto]].
  destruct session_rag as [rag|]; [|exists false, w; unfold m_ret; split; [reflexivity|]; split; [discriminate | auto]].
  destruct (String.eqb_spec key EmptyString) as [Hkey|Hkey];
    [exists false, w; unfold m_ret; split; [reflexivity|]; split; [discriminate | auto]|].
  unfold try_except, m_bind, m_ret.
  pose proof (rebuild_failure embed_content scan_subject rag w) as Hfail.
  pose proof (rebuild_index_spec embed_content scan_subject rag w) as Hspec.
  destruct (rebuild_index embed_content scan_subject rag w) as [[rag'|e] w'] eqn:Hr.
  - exists true, w'. split; [reflexivity|]. split; [|discriminate].
    intros _. exists key, rag. do 3 (split; [done|]).
    unfold m_bind, m_ret in Hspec.
    destruct (_build_knowledge_index _ _ _ _) as [[[]|?] ?]; congruence.
  - exists false, w'. split; [reflexivity|]. split; [discriminate|].
    intros _. right. exists rag. split; [reflexivity|].
    exact (Hfail e eq_refl).
Qed.

End CallerProperties.

(** ** Properties of the directory walk *)

Section TraversalProperties.

Variable str_capitalize : string -> string.
Variable str_title : string -> string.
Variable uuid4 : string -> string.

Lemma lists_app_nil_r (a : Lists) : lists_app a ([], [], []) = a.
Proof. destruct a as [[d m] i]. unfold lists_app. cbn. now rewrite !app_nil_r. Qed.

Lemma lists_app_nil_l (a : Lists) : lists_app ([], [], []) a = a.
Proof. now destruct a as [[d m] i]. Qed.

Lemma lists_app_assoc (a b c : Lists) :
  lists_app (lists_app a b) c = lists_app a (lists_app b c).
Proof. unfold lists_app. cbn. now rewrite <- !app_assoc. Qed.

Lemma append_document_app (a b : Lists) (content : string)
    (md : gmap string string) (path : string) :
  append_document uuid4 (lists_app a b) content md path
    = lists_app a (append_document uuid4 b content md path).
Proof. unfold append_document, lists_app. cbn. now rewrite <- !app_assoc. Qed.

(** A loop whose body only appends, only appends. *)
Lemma fold_left_appends {E : Type} (f : Lists -> E -> Lists) (es : list E) :
  (forall a b e, f (lists_app a b) e = lists_app a (f b e)) ->
  forall a b, fold_left f es (lists_app a b) = lists_app a (fold_left f es b).
Proof.
  intros Hf. induction es as [|e es IH]; intros a b; [reflexivity|].
  cbn. now rewrite Hf, IH.
Qed.

Lemma process_subtopic_entry_app (subject topic_name subtopic_name path : string)
    (a b : Lists) (entry : string * Node) :
  process_subtopic_entry str_title uuid4 subject topic_name subtopic_name path
    (lists_app a b) entry
  = lists_app a (process_subtopic_entry str_title uuid4 subject topic_name
                   subtopic_name path b entry).
Proof.
  unfold process_subtopic_entry.
  destruct (_ && _); [|reflexivity].
  destruct (negb _); [|reflexivity]. apply append_document_app.
Qed.

Lemma process_subtopic_directory_app (subject topic_name subtopic_name path : string)
    (entries : list (string * Node)) (a b : Lists) :
  _process_subtopic_directory str_title uuid4 subject topic_name subtopic_name path
    entries (lists_app a b)
  = lists_app a (_process_subtopic_directory str_title uuid4 subject topic_name
                   subtopic_name path entries b).
Proof.
  apply fold_left_appends. intros. apply process_subtopic_entry_app.
Qed.

Lemma process_topic_entry_app (subject topic_name path : string)
    (a b : Lists) (entry : string * Node) :
  process_topic_entry str_title uuid4 subject topic_name path (lists_app a b) entry
  = lists_app a (process_topic_entry str_title uuid4 subject topic_name path b entry).
Proof.
  unfold process_topic_entry.
  destruct (_ && _).
  - destruct (negb _); [|reflexivity]. apply append_document_app.
  - destruct entry.2; [reflexivity|]. apply process_subtopic_directory_app.
Qed.

Lemma process_topic_directory_app (subject topic_name path : string)
    (entries : list (string * Node)) (a b : Lists) :
  _process_topic_directory str_title uuid4 subject topic_name path entries
    (lists_app a b)
  = lists_app a (_process_topic_directory str_title uuid4 subject topic_name path
                   entries b).
Proof. apply fold_left_appends. intros. apply process_topic_entry_app. Qed.

Lemma process_subject_file_app (subject path : string) (directory : Node)
    (file_name doc_type doc_title : string) (a b : Lists) :
  process_subject_file uuid4 subject path directory file_name doc_type doc_title
    (lists_app a b)
  = lists_app a (process_subject_file uuid4 subject path directory file_name
                   doc_type doc_title b).
Proof.
  unfold process_subject_file.
  destruct (child directory file_name); [|reflexivity].
  destruct (negb _); [|reflexivity]. apply append_document_app.
Qed.

Lemma process_subject_entry_app (subject path : string) (a b : Lists)
    (entry : string * Node) :
  process_subject_entry str_title uuid4 subject path (lists_app a b) entry
  = lists_app a (process_subject_entry str_title uuid4 subject path b entry).
Proof.
  unfold process_subject_entry.
  destruct entry.2; [reflexivity|]. apply process_topic_directory_app.
Qed.

(** The walk of a subject directory started on the empty lists. *)
Lemma process_subject_directory_app (subject path : string)
    (entries : list (string * Node)) (a b : Lists) :
  _process_subject_directory str_capitalize str_title uuid4 subject path (Dir entries)
    (lists_app a b)
  = match _process_subject_directory str_capitalize str_title uuid4 subject path
            (Dir entries) b with
    | Walked new => Walked (lists_app a new)
    | NotADirectoryError p => NotADirectoryError p
    end.
Proof.
  unfold _process_subject_directory.
  rewrite !process_subject_file_app.
  f_equal. apply fold_left_appends. intros. apply process_subject_entry_app.
Qed.

Lemma fold_left_preserves {E : Type} (P : Lists -> Prop)
    (f : Lists -> E -> Lists) (es : list E) :
  (forall a e, P a -> P (f a e)) ->
  forall a, P a -> P (fold_left f es a).
Proof.
  intros Hf. induction es as [|e es IH]; intros a Ha; [exact Ha|].
  cbn. apply IH, Hf, Ha.
Qed.

Lemma append_document_tidy (subject : string) (lists : Lists)
    (content : string) (md : gmap string string) (path : string) :
  tidy subject lists ->
  negb (String.eqb (PyStr.strip content) EmptyString) = true ->
  metadata_of_subject subject md ->
  tidy subject (append_document uuid4 lists content md path).
Proof.
  intros ([Hl1 Hl2] & Hdocs & Hmds) Hcontent Hmd.
  unfold tidy, aligned, append_document. cbn [fst snd].
  rewrite !length_app. cbn [length].
  split; [lia|]. split.
  - apply Forall_app. split; [exact Hdocs|]. constructor; [|constructor].
    intros Hblank. rewrite Hblank in Hcontent. discriminate.
  - apply Forall_app. split; [exact Hmds|].
    constructor; [exact Hmd | constructor].
Qed.

Lemma tidy_nil (subject : string) : tidy subject ([], [], []).
Proof. unfold tidy, aligned. cbn. auto. Qed.

Ltac metadata_ok :=
  unfold metadata_of_subject;
  split; [reflexivity|];
  split; [eexists; split; [reflexivity | unfold DOCUMENT_TYPES; set_solver]|];
  split; eexists; reflexivity.

Lemma process_subtopic_entry_tidy (subject topic_name subtopic_name path : string)
    (lists : Lists) (entry : string * Node) :
  tidy subject lists ->
  tidy subject (process_subtopic_entry str_title uuid4 subject topic_name
                  subtopic_name path lists entry).
Proof.
  intros Ht. unfold process_subtopic_entry.
  destruct (_ && _); [|exact Ht].
  destruct (negb _) eqn:Hc; [|exact Ht].
  apply append_document_tidy; [exact Ht | exact Hc |].
  destruct (Py.endswith entry.1 "-overview.md"); [metadata_ok|].
  destruct (Py.endswith entry.1 "-study-notes.md"); metadata_ok.
Qed.

Lemma process_topic_entry_tidy (subject topic_name path : string)
    (lists : Lists) (entry : string * Node) :
  tidy subject lists ->
  tidy subject (process_topic_entry str_title uuid4 subject topic_name path
                  lists entry).
Proof.
  intros Ht. unfold process_topic_entry.
  destruct (_ && _).
  - destruct (negb _) eqn:Hc; [|exact Ht].
    apply append_document_tidy; [exact Ht | exact Hc |].
    destruct (Py.endswith entry.1 "-overview.md"); [metadata_ok|].
    destruct (Py.endswith entry.1 "-study-notes.md"); metadata_ok.
  - destruct entry.2; [exact Ht|]. unfold _process_subtopic_directory.
    apply fold_left_preserves; [|exact Ht].
    intros. now apply process_subtopic_entry_tidy.
Qed.

Lemma process_subject_file_tidy (subject path : string) (directory : Node)
    (file_name doc_type doc_title : string) (lists : Lists) :
  doc_type ∈ DOCUMENT_TYPES ->
  tidy subject lists ->
  tidy subject (process_subject_file uuid4 subject path directory file_name
                  doc_type doc_title lists).
Proof.
  intros Hty Ht. unfold process_subject_file.
  destruct (child directory file_name); [|exact Ht].
  destruct (negb _) eqn:Hc; [|exact Ht].
  apply append_document_tidy; [exact Ht | exact Hc |].
  unfold metadata_of_subject.
  split; [reflexivity|]. split; [eexists; split; [reflexivity | exact Hty]|].
  split; eexists; reflexivity.
Qed.

Lemma process_subject_directory_tidy (subject path : string) (directory : Node)
    (lists new : Lists) :
  tidy subject lists ->
  _process_subject_directory str_capitalize str_title uuid4 subject path directory lists
    = Walked new ->
  tidy subject new.
Proof.
  intros Ht. unfold _process_subject_directory.
  destruct directory as [text|entries]; [discriminate|].
  intros [= <-]. apply fold_left_preserves.
  - intros a e Ha. unfold process_subject_entry.
    destruct e.2; [exact Ha|]. unfold _process_topic_directory.
    apply fold_left_preserves; [|exact Ha].
    intros. now apply process_topic_entry_tidy.
  - apply process_subject_file_tidy; [unfold DOCUMENT_TYPES; set_solver|].
    apply process_subject_file_tidy; [unfold DOCUMENT_TYPES; set_solver|].
    exact Ht.
Qed.

(** X21. The walk of a subject directory only appends: started on any lists it
    yields those lists followed by what it yields on the empty lists, and
    what it appends is aligned (as many documents as metadata dictionaries
    as ids). *)
Theorem walk_only_appends (subject path : string) (directory : Node)
    (lists new : Lists) :
  _process_subject_directory str_capitalize str_title uuid4 subject path directory
    ([], [], []) = Walked new ->
  _process_subject_directory str_capitalize str_title uuid4 subject path directory lists
    = Walked (lists_app lists new)
  /\ aligned new.
Proof.
  intros Hnew. split.
  - destruct directory as [text|entries]; [discriminate|].
    rewrite <- (lists_app_nil_r lists) at 1.
    now rewrite process_subject_directory_app, Hnew.
  - now apply (process_subject_directory_tidy subject path directory
                 ([], [], []) new (tidy_nil subject)).
Qed.

(** X22. What the walk of a subject directory collects: no document is blank
    (empty after [strip]), and every metadata dictionary carries the
    subject, one of the eight document types, a title and a file path. *)
Theorem walk_collects_tidy_documents (subject path : string) (directory : Node)
    (new : Lists) :
  _process_subject_directory str_capitalize str_title uuid4 subject path directory
    ([], [], []) = Walked new ->
  Forall (fun doc => PyStr.strip doc <> EmptyString) new.1.1
  /\ Forall (metadata_of_subject subject) new.1.2.
Proof.
  intros Hnew.
  now apply (process_subject_directory_tidy subject path directory
               ([], [], []) new (tidy_nil subject)).
Qed.

Lemma fold_left_filter {E : Type} (keep : E -> bool)
    (f : Lists -> E -> Lists) (es : list E) :
  (forall a e, keep e = false -> f a e = a) ->
  forall a, fold_left f (List.filter keep es) a = fold_left f es a.
Proof.
  intros Hf. induction es as [|e es IH]; intros a; [reflexivity|].
  cbn. destruct (keep e) eqn:Hk; cbn; [apply IH|].
  rewrite (Hf a e Hk). apply IH.
Qed.

Lemma find_filter {E : Type} (keep p : E -> bool) (es : list E) :
  (forall e, p e = true -> keep e = true) ->
  List.find p (List.filter keep es) = List.find p es.
Proof.
  intros Hk. induction es as [|e es IH]; [reflexivity|].
  cbn. destruct (keep e) eqn:He; cbn.
  - now rewrite IH.
  - destruct (p e) eqn:Hp; [|exact IH].
    rewrite (Hk e Hp) in He. discriminate.
Qed.

(** X23. Below the subject level only markdown files are read, and nothing below
    a subtopic directory: in a subtopic directory everything but the files
    with suffix [.md] can be removed, and in a topic directory every file
    without that suffix, without changing what is collected. *)
Theorem walk_reads_markdown_files_only (subject topic_name path : string)
    (entries : list (string * Node)) (lists : Lists) :
  (forall subtopic_name,
     _process_subtopic_directory str_title uuid4 subject topic_name subtopic_name
       path entries lists
     = _process_subtopic_directory str_title uuid4 subject topic_name subtopic_name
         path
         (List.filter (fun e => is_file e.2
                                && String.eqb (PyPath.suffix e.1) ".md")
                      entries)
         lists)
  /\ _process_topic_directory str_title uuid4 subject topic_name path entries lists
     = _process_topic_directory str_title uuid4 subject topic_name path
         (List.filter (fun e => is_dir e.2
                                || String.eqb (PyPath.suffix e.1) ".md")
                      entries)
         lists.
Proof.
  split.
  - intros subtopic_name. unfold _process_subtopic_directory. symmetry.
    apply fold_left_filter. intros a e Hk. unfold process_subtopic_entry.
    now rewrite Hk.
  - unfold _process_topic_directory. symmetry.
    apply fold_left_filter. intros a e Hk. unfold process_topic_entry.
    apply orb_false_iff in Hk as [Hd Hs]. rewrite Hs, andb_false_r.
    destruct e.2; [reflexivity | discriminate].
Qed.

(** X24. At the subject level only the overview file, the study notes file and
    the directories are looked at: any other file of the subject directory,
    markdown or not, can be removed without changing what is collected. *)
Theorem walk_ignores_other_subject_files (subject path : string)
    (entries : list (string * Node)) (lists : Lists) :
  _process_subject_directory str_capitalize str_title uuid4 subject path (Dir entries)
    lists
  = _process_subject_directory str_capitalize str_title uuid4 subject path
      (Dir (List.filter
              (fun e => is_dir e.2
                        || String.eqb e.1 (subject +:+ "-overview.md")
                        || String.eqb e.1 (subject +:+ "-study-notes.md"))
              entries))
      lists.
Proof.
  unfold _process_subject_directory, process_subject_file, child.
  rewrite !find_filter.
  - f_equal. symmetry. apply fold_left_filter.
    intros a e Hk. unfold process_subject_entry.
    apply orb_false_iff in Hk as [Hk _]. apply orb_false_iff in Hk as [Hd _].
    destruct e.2; [reflexivity | discriminate].
  - intros e He. cbn in He. rewrite He. now rewrite ?orb_true_r.
  - intros e He. cbn in He. rewrite He. now rewrite ?orb_true_r.
Qed.

End TraversalProperties.

(** ** From the directory walk to the index *)

Section EndToEnd.

Variable embed_content : string -> outcome (list (list float)).
Variable scan_subject :
  string -> string -> option (outcome (list (string * gmap string string * string))).
Variable str_capitalize : string -> string.
Variable str_title : string -> string.
Variable uuid4 : string -> string.

Lemma triples_tidy (subject : string) (lists : Lists)
    (t : string * gmap string string * string) :
  tidy subject lists -> t ∈ triples lists ->
  PyStr.strip t.1.1 <> EmptyString /\ metadata_of_subject subject t.1.2.
Proof.
  intros (_ & Hdocs & Hmds) Ht. destruct t as [[doc md] id].
  unfold triples in Ht. apply elem_of_zip_l in Ht.
  pose proof (elem_of_zip_l _ _ _ _ Ht) as Hd.
  pose proof (elem_of_zip_r _ _ _ _ Ht) as Hm.
  rewrite Forall_forall in Hdocs. rewrite Forall_forall in Hmds. cbn.
  split; [apply Hdocs, Hd | apply Hmds, Hm].
Qed.

Lemma scanned_tidy (root : Node) (self : SATKnowledgeRAG)
    (collected : list (string * gmap string string * string))
    (t : string * gmap string string * string) :
  reads str_capitalize str_title uuid4 scan_subject root (knowledge_base_path self) ->
  scanned scan_subject self = Ok collected ->
  t ∈ collected ->
  PyStr.strip t.1.1 <> EmptyString
  /\ (metadata_of_subject "math" t.1.2 \/ metadata_of_subject "english" t.1.2).
Proof.
  intros Hreads Hs Ht.
  assert (Hone : forall subject found,
            subject ∈ ["math"; "english"] ->
            subject_documents scan_subject self subject = Ok found ->
            t ∈ found ->
            PyStr.strip t.1.1 <> EmptyString
            /\ metadata_of_subject subject t.1.2).
  { intros subject found Hin Hfound Hmem. specialize (Hreads subject Hin).
    unfold subject_documents in Hfound.
    destruct (child root subject) as [directory|].
    - destruct Hreads as (new & Hwalk & Hscan). rewrite Hscan in Hfound.
      injection Hfound as <-.
      apply (triples_tidy subject new t); [|exact Hmem].
      exact (process_subject_directory_tidy str_capitalize str_title uuid4 _ _ _ _ _
               (tidy_nil subject) Hwalk).
    - rewrite Hreads in Hfound. injection Hfound as <-. inversion Hmem. }
  unfold scanned in Hs.
  destruct (subject_documents scan_subject self "math") as [math|e] eqn:Hm;
    [|discriminate].
  destruct (subject_documents scan_subject self "english") as [english|e] eqn:He;
    [|discriminate].
  injection Hs as <-. apply elem_of_app in Ht as [Ht|Ht].
  - destruct (Hone "math" math) as [Hd Hmd]; auto.
    apply list_elem_of_here.
  - destruct (Hone "english" english) as [Hd Hmd]; auto.
    apply list_elem_of_further, list_elem_of_here.
Qed.

(** A walk that did not fail gives the build its documents. *)
Lemma reads_scanned (root : Node) (self : SATKnowledgeRAG) :
  reads str_capitalize str_title uuid4 scan_subject root (knowledge_base_path self) ->
  exists collected, scanned scan_subject self = Ok collected.
Proof.
  intros Hreads.
  assert (Hone : forall subject, subject ∈ ["math"; "english"] ->
            exists found, subject_documents scan_subject self subject = Ok found).
  { intros subject Hin. specialize (Hreads subject Hin).
    unfold subject_documents.
    destruct (child root subject) as [directory|].
    - destruct Hreads as (new & _ & ->). eauto.
    - rewrite Hreads. eauto. }
  destruct (Hone "math") as [math Hm]; [apply list_elem_of_here|].
  destruct (Hone "english") as [english He];
    [apply list_elem_of_further, list_elem_of_here|].
  unfold scanned. rewrite Hm, He. eauto.
Qed.

(** X25. After a first construction over a directory tree, whatever the
    collection holds came from the walk: no entry has a blank document and
    every entry carries well-formed metadata with subject math or english. *)
Theorem index_holds_walked_documents (root : Node) (kb name : string)
    (w : World) :
  reads str_capitalize str_title uuid4 scan_subject root kb ->
  store w !! name = None ->
  exists entries,
    store (__init__ embed_content scan_subject kb name w).2 !! name
      = Some entries
    /\ Forall (fun e =>
                PyStr.strip (entry_document e) <> EmptyString
                /\ (metadata_of_subject "math" (entry_metadata e)
                    \/ metadata_of_subject "english" (entry_metadata e)))
              entries.
Proof.
  intros Hreads Hn. rewrite init_missing by exact Hn. unfold m_bind, m_ret.
  set (self := mkRAG kb name name).
  assert (Hs : store (cleared name w) !! name = Some [])
    by apply lookup_insert_eq.
  pose proof (build_eval embed_content scan_subject self (cleared name w)) as Hb.
  destruct (reads_scanned root self Hreads) as [collected Hscan].
  rewrite Hscan in Hb. destruct collected as [|t0 ts].
  { rewrite Hb. cbn. exists []. split; [exact Hs | constructor]. }
  rewrite add_of_triples in Hb. cbn [logged store collection self] in Hb.
  rewrite Hs in Hb.
  destruct (forallb _ _).
  - rewrite Hb. cbn [snd store]. eexists. split; [apply lookup_insert_eq|].
    cbn [app]. apply Forall_forall. intros e He.
    change (map ?f ?l) with (f <$> l) in He.
    apply list_elem_of_fmap in He as (t & -> & Ht).
    cbn [entry_of entry_document entry_metadata].
    now apply (scanned_tidy root self (t0 :: ts)).
  - rewrite Hb. cbn. exists []. split; [exact Hs | constructor].
Qed.

End EndToEnd.

(** ** More concrete runs *)

Import MoreSamples.

Lemma provider_768 (text : string) (v : list float) (vs : list (list float)) :
  provider text = Ok (v :: vs) -> length v = 768%nat.
Proof.
  unfold provider. destruct (String.eqb text "unreadable"); [discriminate|].
  intros [= <- _]. vm_compute. reflexivity.
Qed.

(** The walk of a directory does not fail. *)
Lemma walk_of_directory (ascii_capitalize ascii_title uuid4 : string -> string)
    (subject path : string) (entries : list (string * Node)) (lists : Lists) :
  _process_subject_directory ascii_capitalize ascii_title uuid4 subject path (Dir entries)
    lists
  = Walked (walked_lists
              (_process_subject_directory ascii_capitalize ascii_title uuid4 subject path
                 (Dir entries) lists)).
Proof. reflexivity. Qed.

Lemma walk_scan_reads : reads ascii_capitalize ascii_title uuid4 walk_scan root "kb".
Proof.
  intros subject Hin.
  apply elem_of_cons in Hin as [-> | Hin];
    [|apply elem_of_cons in Hin as [-> | Hin]; [|inversion Hin]].
  - change (child root "math") with (Some math_directory).
    eexists. split; [apply walk_of_directory|].
    unfold walk_scan, scan_tree.
    change (child root "math") with (Some math_directory).
    unfold math_directory. now rewrite walk_of_directory at 1.
  - change (child root "english")
      with (Some (Dir [("english-overview.md", File (Ok "English overview"))])).
    eexists. split; [apply walk_of_directory|].
    unfold walk_scan, scan_tree.
    change (child root "english")
      with (Some (Dir [("english-overview.md", File (Ok "English overview"))])).
    now rewrite walk_of_directory at 1.
Qed.

Lemma search_unknown_filter_is_all_witness :
  search provider l2 rag "algebra" "science" 5 indexed
    = search provider l2 rag "algebra" "all" 5 indexed.
Proof.
  exact (search_unknown_filter_is_all provider l2 rag "algebra" "science" 5
           indexed ltac:(discriminate) ltac:(discriminate)).
Defined.

Lemma search_failed_query_embedding_witness :
  search provider l2 rag "unreadable" "all" 5 indexed
    = search (fun _ => Ok [ZERO_VECTOR]) l2 rag "unreadable" "all" 5 indexed.
Proof.
  exact (search_failed_query_embedding provider l2 rag "unreadable" "all" 5
           indexed (ProviderError "quota exceeded") eq_refl).
Defined.

Lemma roomy_context_keeps_everything_witness :
  assemble_context [short; short] 300
    = Py.join SEPARATOR [whole_block short; whole_block short].
Proof.
  exact (roomy_context_keeps_everything [short; short] 300
           ltac:(discriminate) ltac:(vm_compute; discriminate)).
Defined.

Lemma truncated_block_is_last_witness :
  (assemble_loop 300 [long_content; short] [] 0).2 = 303.
Proof.
  rewrite (truncated_block_is_last 300 [] 0 long_content [short]);
    [reflexivity | vm_compute; reflexivity | vm_compute; reflexivity].
Defined.

Lemma small_maximum_gives_empty_context_witness :
  assemble_context [short] 123 = EmptyString.
Proof.
  exact (small_maximum_gives_empty_context [short] 123
           ltac:(discriminate) ltac:(vm_compute; discriminate)).
Defined.

Lemma context_of_results_is_not_sentinel_witness :
  assemble_context [short] 300 <> NO_RELEVANT_INFORMATION.
Proof.
  exact (proj2 (context_of_results_is_not_sentinel [short] 300
                  ltac:(discriminate))).
Defined.

(** What the build collects from the sample knowledge base. *)
Lemma scanned_knowledge_base :
  scanned knowledge_base rag
  = Ok [doc "math" "Algebra Study Notes" "linear equations" "m1";
        doc "math" "Geometry Study Notes" "unreadable" "m2";
        doc "english" "Grammar Study Notes" "comma rules" "e1"].
Proof. reflexivity. Qed.

(** With [math] a regular file the walk raises before anything is
    collected. *)
Lemma scanned_misplaced_root :
  scanned (scan_tree misplaced_root) rag = Raise (OSError "kb/math").
Proof. reflexivity. Qed.

(** Construction over that tree creates the collection, looks at the math
    directory and raises: the english directory is not looked at and
    nothing is embedded or added. *)
Lemma walk_error_ends_construction :
  __init__ provider (scan_tree misplaced_root) "kb" "sat_knowledge" fresh
  = (Raise (OSError "kb/math"),
     logged (cleared "sat_knowledge" fresh) [EvScan "kb" "math"]).
Proof. vm_compute. reflexivity. Qed.

Lemma build_indexes_every_document_witness :
  ((_build_knowledge_index provider knowledge_base rag
      (cleared "sat_knowledge" fresh)).1 = Ok tt
   /\ store (_build_knowledge_index provider knowledge_base rag
               (cleared "sat_knowledge" fresh)).2 !! collection rag
      = Some (map (entry_of provider)
                [doc "math" "Algebra Study Notes" "linear equations" "m1";
                 doc "math" "Geometry Study Notes" "unreadable" "m2";
                 doc "english" "Grammar Study Notes" "comma rules" "e1"]))
  /\ (_build_knowledge_index provider (scan_tree misplaced_root) rag
        (cleared "sat_knowledge" fresh)).1 = Raise (OSError "kb/math").
Proof.
  split.
  - refine (proj1 (build_indexes_every_document provider knowledge_base rag
                     (cleared "sat_knowledge" fresh) provider_768 _)
                  _ scanned_knowledge_base).
    apply lookup_insert_eq.
  - rewrite (proj1 (proj2 (build_indexes_every_document provider
                             (scan_tree misplaced_root) rag
                             (cleared "sat_knowledge" fresh) provider_768
                             (lookup_insert_eq _ _ _)))
               _ scanned_misplaced_root).
    reflexivity.
Defined.

Lemma build_fails_on_mixed_dimensions_witness :
  (_build_knowledge_index small_provider knowledge_base rag
     (cleared "sat_knowledge" fresh)).1 = Raise InvalidDimensionException.
Proof.
  refine (proj1 (build_fails_on_mixed_dimensions small_provider knowledge_base
                   rag (cleared "sat_knowledge" fresh) _
                   (doc "math" "Algebra Study Notes" "linear equations" "m1")
                   (doc "math" "Geometry Study Notes" "unreadable" "m2")
                   _ scanned_knowledge_base _ _ _)).
  - vm_compute. eauto.
  - apply list_elem_of_here.
  - apply list_elem_of_further, list_elem_of_here.
  - vm_compute. discriminate.
Defined.

Lemma build_without_documents_witness :
  _build_knowledge_index provider empty_knowledge_base rag fresh
    = (Ok tt, logged fresh [EvScan "kb" "math"; EvScan "kb" "english"]).
Proof.
  exact (build_without_documents provider empty_knowledge_base rag fresh eq_refl).
Defined.

Lemma failed_rebuild_leaves_empty_collection_witness :
  store (rebuild_index small_provider knowledge_base rag indexed).2
    !! "sat_knowledge" = Some [].
Proof.
  apply (failed_rebuild_leaves_empty_collection small_provider knowledge_base
           rag indexed InvalidDimensionException).
  vm_compute. reflexivity.
Defined.

Lemma rebuild_replaces_collection_witness :
  store (rebuild_index provider knowledge_base rag indexed).2 !! "sat_knowledge"
    = Some (map (entry_of provider)
              [doc "math" "Algebra Study Notes" "linear equations" "m1";
               doc "math" "Geometry Study Notes" "unreadable" "m2";
               doc "english" "Grammar Study Notes" "comma rules" "e1"])
  /\ (rebuild_index provider (scan_tree misplaced_root) rag indexed).1
     = Raise (OSError "kb/math").
Proof.
  split.
  - exact (proj2 (proj1 (rebuild_replaces_collection provider knowledge_base rag
                           indexed provider_768)
                        _ scanned_knowledge_base)).
  - exact (proj1 (proj1 (proj2 (rebuild_replaces_collection provider
                                  (scan_tree misplaced_root) rag indexed
                                  provider_768))
                        _ scanned_misplaced_root)).
Defined.

Lemma failed_first_build_leaves_empty_index_witness :
  store (__init__ small_provider knowledge_base "kb" "sat_knowledge" fresh).2
    !! "sat_knowledge" = Some [].
Proof.
  refine (proj1 (failed_first_build_leaves_empty_index small_provider
                   knowledge_base l2 "kb" "sat_knowledge" fresh
                   InvalidDimensionException _ _)).
  - reflexivity.
  - vm_compute. reflexivity.
Defined.

Lemma stats_after_first_construction_witness :
  (__init__ provider knowledge_base "kb" "sat_knowledge" fresh).1 = Ok rag
  /\ (__init__ provider (scan_tree misplaced_root) "kb" "sat_knowledge" fresh).1
     = Raise (OSError "kb/math").
Proof.
  split.
  - exact (proj1 (proj1 (stats_after_first_construction provider knowledge_base
                           str_exn "kb" "sat_knowledge" fresh provider_768
                           eq_refl)
                        _ scanned_knowledge_base)).
  - exact (proj2 (stats_after_first_construction provider
                    (scan_tree misplaced_root) str_exn "kb" "sat_knowledge"
                    fresh provider_768 eq_refl)
                 _ scanned_misplaced_root).
Defined.

Lemma context_tool_always_succeeds_witness :
  exists d,
    (_get_context provider l2 str_exn (mkExecutor rag) "algebra" "math" 300
       indexed).1 = Ok d
    /\ d !! "status" = Some (VStr "success").
Proof.
  destruct (context_tool_always_succeeds provider l2 str_exn (mkExecutor rag)
              "algebra" "math" 300 indexed ltac:(lia))
    as (d & context & w' & Hrun & Hstatus & _).
  exists d. rewrite Hrun. auto.
Defined.

Lemma walk_only_appends_witness :
  _process_subject_directory ascii_capitalize ascii_title uuid4 "math" "kb/math"
    math_directory (["earlier"], [∅], ["id"])
  = Walked (lists_app (["earlier"], [∅], ["id"]) math_walk).
Proof.
  apply (walk_only_appends ascii_capitalize ascii_title uuid4 "math" "kb/math" math_directory
           (["earlier"], [∅], ["id"]) math_walk).
  apply walk_of_directory.
Defined.

Lemma walk_collects_tidy_documents_witness :
  Forall (metadata_of_subject "math") math_walk.1.2.
Proof.
  apply (walk_collects_tidy_documents ascii_capitalize ascii_title uuid4 "math" "kb/math"
           math_directory math_walk).
  apply walk_of_directory.
Defined.

Lemma index_holds_walked_documents_witness :
  exists entries,
    store (__init__ provider walk_scan "kb" "sat_knowledge" fresh).2
      !! "sat_knowledge" = Some entries
    /\ Forall (fun e => PyStr.strip (entry_document e) <> EmptyString) entries.
Proof.
  destruct (index_holds_walked_documents provider walk_scan ascii_capitalize ascii_title
              uuid4 root "kb" "sat_knowledge" fresh walk_scan_reads eq_refl)
    as (entries & Hstore & Hall).
  exists entries. split; [exact Hstore|].
  eapply Forall_impl; [exact Hall | now intros e [He _]].
Defined.
